(** * thin_mode_api: the HTTP wrapper of [app.py]

    A shallow embedding of the request handlers of [app.py] ([health_check],
    [generate], [model_info]).  The tokenizer, the language model and the
    JSON parser of the web framework are external collaborators: they enter
    the embedding as the fields of the [Tokenizer] and [Model] records and as
    the outcome of [request.get_json()].  Python values, exceptions, the
    [try]/[except] block of [generate] and the calls made to the collaborators
    are modelled explicitly. *)

From Stdlib Require Import ZArith NArith List String Ascii Bool Lia.
From Stdlib Require Import Floats.SpecFloat.
From Stdlib Require DecimalString.
Import ListNotations.
Local Open Scope Z_scope.
Local Set Warnings "-register-all".

(** ** Python values *)

(** A Python [str] is a sequence of Unicode code points, so that [len] and
    slicing count characters, as they do in Python. *)
Definition pystr := list N.

(** The [str] written by an ASCII literal of the source. *)
Definition py (s : string) : pystr :=
  map N_of_ascii (list_ascii_of_string s).

(** What [json.loads] can produce: [None], [bool], [int], [float], [str],
    [list] and [dict] (keys in insertion order). *)
Inductive PyVal : Type :=
| PNone
| PBool (b : bool)
| PInt (n : Z)
| PFloat (f : spec_float)
| PStr (s : pystr)
| PList (l : list PyVal)
| PDict (d : list (pystr * PyVal)).

(** [type(v).__name__] *)
Definition type_name (v : PyVal) : pystr :=
  match v with
  | PNone => py "NoneType"
  | PBool _ => py "bool"
  | PInt _ => py "int"
  | PFloat _ => py "float"
  | PStr _ => py "str"
  | PList _ => py "list"
  | PDict _ => py "dict"
  end.

(** [bool(v)], the test of [if not v]. *)
Definition truthy (v : PyVal) : bool :=
  match v with
  | PNone => false
  | PBool b => b
  | PInt n => negb (n =? 0)
  | PFloat (S754_zero _) => false
  | PFloat _ => true
  | PStr s => match s with [] => false | _ :: _ => true end
  | PList l => match l with [] => false | _ :: _ => true end
  | PDict d => match d with [] => false | _ :: _ => true end
  end.

Fixpoint pystr_eqb (a b : pystr) : bool :=
  match a, b with
  | [], [] => true
  | x :: a', y :: b' => (x =? y)%N && pystr_eqb a' b'
  | _, _ => false
  end.

(** Lookup of a key in a [dict]. *)
Fixpoint dict_get (k : pystr) (d : list (pystr * PyVal)) : option PyVal :=
  match d with
  | [] => None
  | (k', v) :: d' => if pystr_eqb k k' then Some v else dict_get k d'
  end.

(** ** Exceptions and outcomes *)

(** An exception derived from [Exception]: its class name and [str(e)]. *)
Record PyExc : Type := mkExc { exc_class : pystr; exc_str : pystr }.

Inductive Outcome (A : Type) : Type :=
| Raised (e : PyExc)
| Returned (a : A).
Arguments Raised {A} e.
Arguments Returned {A} a.

(** [d.get(key, default)] on a [dict]. *)
Definition dict_get_or (key : pystr) (d : list (pystr * PyVal))
    (default : PyVal) : PyVal :=
  match dict_get key d with Some x => x | None => default end.

(** [v.get(key, default)]: only a [dict] has the method. *)
Definition py_get (v : PyVal) (key : pystr) (default : PyVal) : Outcome PyVal :=
  match v with
  | PDict d => Returned (dict_get_or key d default)
  | _ =>
      Raised (mkExc (py "AttributeError")
                (py "'" ++ type_name v ++ py "' object has no attribute 'get'"))
  end.

(** The exact comparison [f > n] of a [float] with an [int]. *)
Definition float_gt_int (f : spec_float) (n : Z) : bool :=
  match f with
  | S754_nan => false
  | S754_infinity neg => negb neg
  | S754_zero _ => 0 >? n
  | S754_finite neg m e =>
      let sm := if neg then Z.neg m else Z.pos m in
      if 0 <=? e then sm * 2 ^ e >? n else sm >? n * 2 ^ (- e)
  end.

(** [v > n] for an [int] [n]: numbers are ordered ([bool] is an [int]), every
    other type raises [TypeError]. *)
Definition py_gt_int (v : PyVal) (n : Z) : Outcome bool :=
  match v with
  | PBool b => Returned (Z.b2z b >? n)
  | PInt m => Returned (m >? n)
  | PFloat f => Returned (float_gt_int f n)
  | _ =>
      Raised (mkExc (py "TypeError")
                (py "'>' not supported between instances of '" ++ type_name v
                 ++ py "' and 'int'"))
  end.

(** [len(v)] *)
Definition py_len (v : PyVal) : Outcome nat :=
  match v with
  | PStr s => Returned (List.length s)
  | PList l => Returned (List.length l)
  | PDict d => Returned (List.length d)
  | _ =>
      Raised (mkExc (py "TypeError")
                (py "object of type '" ++ type_name v ++ py "' has no len()"))
  end.

(** [str.isspace] on one code point, the whitespace of [str.strip()]. *)
Definition py_isspace (c : N) : bool :=
  ((9 <=? c) && (c <=? 13) || (28 <=? c) && (c <=? 32)
   || (c =? 133) || (c =? 160) || (c =? 5760)
   || (8192 <=? c) && (c <=? 8202)
   || (c =? 8232) || (c =? 8233) || (c =? 8239) || (c =? 8287)
   || (c =? 12288))%N.

Fixpoint lstrip (s : pystr) : pystr :=
  match s with
  | [] => []
  | c :: s' => if py_isspace c then lstrip s' else s
  end.

Definition rstrip (s : pystr) : pystr := rev (lstrip (rev s)).

(** [s.strip()] *)
Definition strip (s : pystr) : pystr := rstrip (lstrip s).

(** [s[n:]] for [n >= 0] *)
Definition slice_from (n : nat) (s : pystr) : pystr := skipn n s.

(** ** The external collaborators *)

(** A two-dimensional integer tensor (batch of token sequences). *)
Definition Tensor2 := list (list Z).

(** [t[0]] *)
Definition row0 (t : Tensor2) : Outcome (list Z) :=
  match t with
  | r :: _ => Returned r
  | [] =>
      Raised (mkExc (py "IndexError")
                (py "index 0 is out of bounds for dimension 0 with size 0"))
  end.

(** The [BatchEncoding] returned by the tokenizer; ['attention_mask' in inputs]
    is [attention_mask <> None]. *)
Record Encoding : Type := mkEncoding {
  input_ids : Tensor2;
  attention_mask : option Tensor2
}.

(** The arguments of [model.generate]. *)
Record GenArgs : Type := mkGenArgs {
  arg_input_ids : Tensor2;
  arg_max_new_tokens : PyVal;
  arg_do_sample : PyVal;
  arg_temperature : PyVal;
  arg_top_p : PyVal;
  arg_pad_token_id : option Z;
  arg_attention_mask : option Tensor2
}.

(** The tokenizer: [tok_call text] is
    [tokenizer(text, return_tensors="pt", padding=True, truncation=True)] and
    [tok_decode ids] is [tokenizer.decode(ids, skip_special_tokens=True)]. *)
Record Tokenizer : Type := mkTokenizer {
  tok_call : PyVal -> Outcome Encoding;
  tok_decode : list Z -> Outcome pystr;
  vocab_size : Z;
  model_max_length : Z;
  pad_token : option pystr;
  eos_token : option pystr;
  pad_token_id : option Z
}.

(** The state of the random generator that sampling draws from. *)
Definition Rng := N.

(** The model: [m_generate rng args] is [model.generate(...)], run from the
    generator state [rng]. *)
Record Model : Type := mkModel {
  m_generate : Rng -> GenArgs -> Outcome Tensor2 * Rng
}.

(** The globals [model] and [tokenizer], [None] until [load_model] ran. *)
Record Globals : Type := mkGlobals {
  model : option Model;
  tokenizer : option Tokenizer
}.

(** Lines 25-26: both globals start as [None]. *)
Definition initial_globals : Globals := mkGlobals None None.

(** The configuration read from the environment (lines 18-22); nothing
    relates the default to the limit. *)
Record Config : Type := mkConfig {
  MODEL_NAME : pystr;
  MAX_TOKENS_DEFAULT : Z;
  MAX_TOKENS_LIMIT : Z
}.

(** ** Effects: calls to the collaborators, the log, the random generator *)

Inductive Event : Type :=
| CallTokenizer (text : PyVal)
| CallGenerate (args : GenArgs)
| CallDecode (ids : list Z)
| LogError (msg : pystr).

Record World : Type := mkWorld {
  rng : Rng;
  events : list Event
}.

Definition M (A : Type) : Type := World -> Outcome A * World.

Definition ret {A} (a : A) : M A := fun w => (Returned a, w).

Definition bind {A B} (m : M A) (k : A -> M B) : M B :=
  fun w =>
    match m w with
    | (Returned a, w') => k a w'
    | (Raised e, w') => (Raised e, w')
    end.

Declare Scope py_scope.
Delimit Scope py_scope with py.
Notation "x <- m ;; k" := (bind m (fun x => k))
  (at level 61, m at next level, right associativity) : py_scope.
Local Open Scope py_scope.

(** A pure Python operation: it returns or raises, the world is unchanged. *)
Definition lift {A} (o : Outcome A) : M A := fun w => (o, w).

Definition emit (ev : Event) : M unit :=
  fun w => (Returned tt, mkWorld (rng w) (events w ++ [ev])).

Definition call_tokenizer (tk : Tokenizer) (text : PyVal) : M Encoding :=
  _ <- emit (CallTokenizer text) ;; lift (tok_call tk text).

Definition call_generate (m : Model) (args : GenArgs) : M Tensor2 :=
  fun w =>
    let '(o, r) := m_generate m (rng w) args in
    (o, mkWorld r (events w ++ [CallGenerate args])).

Definition call_decode (tk : Tokenizer) (ids : list Z) : M pystr :=
  _ <- emit (CallDecode ids) ;; lift (tok_decode tk ids).

(** [try: body except Exception as e: handler], where the handler returns. *)
Definition try_except {A} (body : M A) (handler : PyExc -> World -> A * World)
  : World -> A * World :=
  fun w =>
    match body w with
    | (Returned a, w') => (a, w')
    | (Raised e, w') => handler e w'
    end.

(** ** Responses *)

(** [jsonify(body), status] *)
Record Response : Type := mkResponse {
  status : Z;
  body : list (pystr * PyVal)
}.

Definition json_error (msg : pystr) (code : Z) : Response :=
  mkResponse code [(py "error", PStr msg)].

Definition opt_str (o : option pystr) : PyVal :=
  match o with Some s => PStr s | None => PNone end.

(** The literal [1.0]. *)
Definition float_one : spec_float := S754_finite false 4503599627370496 (-52).

(** ** The handlers *)

Section Handlers.

Variable cfg : Config.

(** [GET /] *)
Definition health_check : Response :=
  mkResponse 200
    [(py "status", PStr (py "healthy"));
     (py "model", PStr (MODEL_NAME cfg));
     (py "version", PStr (py "1.0.0"))].

(** Lines 82-108 of [generate]: tokenize, generate, decode and shape the
    response, for the parameters that the validation produced. *)
Definition run_generation (m : Model) (tk : Tokenizer)
    (prompt max_tokens do_sample temperature top_p : PyVal) : M Response :=
  inputs <- call_tokenizer tk prompt ;;
  outputs <- call_generate m
               (mkGenArgs (input_ids inputs) max_tokens do_sample
                  temperature top_p (pad_token_id tk)
                  (attention_mask inputs)) ;;
  out0 <- lift (row0 outputs) ;;
  generated_text <- call_decode tk out0 ;;
  n <- lift (py_len prompt) ;;
  let response_text := strip (slice_from n generated_text) in
  out0' <- lift (row0 outputs) ;;
  in0 <- lift (row0 (input_ids inputs)) ;;
  ret (mkResponse 200
         [(py "response", PStr response_text);
          (py "full_text", PStr generated_text);
          (py "model", PStr (MODEL_NAME cfg));
          (py "tokens_generated",
           PInt (Z.of_nat (List.length out0') - Z.of_nat (List.length in0)))]).

(** Lines 110-112, the [except Exception as e] clause of [generate]. *)
Definition on_exception (e : PyExc) (w : World) : Response * World :=
  (json_error (py "Generation failed: " ++ exc_str e) 500,
   mkWorld (rng w)
     (events w ++ [LogError (py "Error generating text: " ++ exc_str e)])).

(** [POST /generate]; [get_json] is the outcome of [request.get_json()],
    which is evaluated only when the handler reaches that call. *)
Definition generate (g : Globals) (get_json : Outcome PyVal)
  : World -> Response * World :=
  try_except
    (match model g, tokenizer g with
     | Some m, Some tk =>
         data <- lift get_json ;;
         if negb (truthy data) then
           ret (json_error (py "No JSON data provided") 400)
         else
           prompt <- lift (py_get data (py "prompt") (PStr (py ""))) ;;
           if negb (truthy prompt) then
             ret (json_error (py "No prompt provided") 400)
           else
             max_tokens <- lift (py_get data (py "max_tokens")
                                   (PInt (MAX_TOKENS_DEFAULT cfg))) ;;
             over <- lift (py_gt_int max_tokens (MAX_TOKENS_LIMIT cfg)) ;;
             let max_tokens :=
               if over : bool then PInt (MAX_TOKENS_LIMIT cfg) else max_tokens in
             do_sample <- lift (py_get data (py "do_sample") (PBool true)) ;;
             temperature <- lift (py_get data (py "temperature")
                                    (PFloat float_one)) ;;
             top_p <- lift (py_get data (py "top_p") (PFloat float_one)) ;;
             run_generation m tk prompt max_tokens do_sample temperature top_p
     | _, _ => ret (json_error (py "Model not loaded") 500)
     end)
    on_exception.

(** [GET /model-info] *)
Definition model_info (g : Globals) : Response :=
  match model g, tokenizer g with
  | Some _, Some tk =>
      mkResponse 200
        [(py "model_name", PStr (MODEL_NAME cfg));
         (py "vocab_size", PInt (vocab_size tk));
         (py "model_max_length", PInt (model_max_length tk));
         (py "pad_token", opt_str (pad_token tk));
         (py "eos_token", opt_str (eos_token tk))]
  | _, _ => json_error (py "Model not loaded") 500
  end.

End Handlers.

(** ** The JSON payload of a request

    Line 64 calls [request.get_json()] with its default arguments: neither
    [force] nor [silent] is set.  With the framework that [setup.py] pins
    (line 28, [flask==2.3.3]) the call returns the parsed value only for a
    request whose content type is JSON and whose body parses.  For a
    request with another content type, or with none (a request without a
    body), it raises [UnsupportedMediaType]; for a JSON content type with a
    body that does not parse (an empty body among them) it raises
    [BadRequest].  Both classes derive from [Exception]. *)

(** What a request carries. *)
Inductive Payload : Type :=
| NoJson
| Unparsable
| Json (v : PyVal).

(** The two exceptions of the framework. *)
Record Framework : Type := mkFramework {
  unsupported_media_type : PyExc;
  bad_request : PyExc
}.

(** [request.get_json()] *)
Definition request_get_json (fw : Framework) (p : Payload) : Outcome PyVal :=
  match p with
  | NoJson => Raised (unsupported_media_type fw)
  | Unparsable => Raised (bad_request fw)
  | Json v => Returned v
  end.

(** ** Observing a run *)

(** The events a handler added to the log of [w] on its way to [w']. *)
Definition calls_since (w w' : World) : list Event :=
  skipn (List.length (events w)) (events w').

(** The [max_new_tokens] of every call to [model.generate], in order. *)
Fixpoint generator_budgets (tr : list Event) : list PyVal :=
  match tr with
  | [] => []
  | CallGenerate a :: tr' => arg_max_new_tokens a :: generator_budgets tr'
  | _ :: tr' => generator_budgets tr'
  end.

(** Whether [model.generate] was called at all. *)
Definition generator_invoked (tr : list Event) : bool :=
  existsb (fun ev => match ev with CallGenerate _ => true | _ => false end) tr.

(** [int], [bool] and [float] are ordered against an [int]. *)
Definition is_number (v : PyVal) : bool :=
  match v with
  | PBool _ | PInt _ | PFloat _ => true
  | _ => false
  end.

(** The value of a key of a JSON body, when the body is an object that has
    the key. *)
Definition body_key (data : PyVal) (k : pystr) : option PyVal :=
  match data with
  | PDict d => dict_get k d
  | _ => None
  end.


(** A model whose output does not depend on the random generator when
    sampling is switched off (greedy decoding). *)
Definition greedy_deterministic (m : Model) : Prop :=
  forall args r1 r2,
    arg_do_sample args = PBool false ->
    fst (m_generate m r1 args) = fst (m_generate m r2 args).

(** The value that lines 73-75 compare with the limit for the body [d]:
    [d.get("max_tokens", MAX_TOKENS_DEFAULT)]. *)
Definition requested_max_tokens (cfg : Config) (d : list (pystr * PyVal))
  : PyVal :=
  dict_get_or (py "max_tokens") d (PInt (MAX_TOKENS_DEFAULT cfg)).

(** ** A small model and tokenizer to run the handlers on *)

Module Toy.

(** One token per character. *)
Definition tok : Tokenizer :=
  mkTokenizer
    (fun text =>
       match text with
       | PStr s =>
           Returned (mkEncoding [map Z.of_N s] (Some [map (fun _ => 1) s]))
       | _ =>
           Raised (mkExc (py "ValueError")
                     (py "text input must be of type `str`"))
       end)
    (fun ids => Returned (map Z.to_N ids))
    256 1024 (Some (py "<|endoftext|>")) (Some (py "<|endoftext|>"))
    (Some 255).

(** Continues every sequence with the tokens of [" ok"]; when sampling, the
    last token is drawn from the random generator. *)
Definition lm : Model :=
  mkModel
    (fun r args =>
       if truthy (arg_do_sample args) then
         (Returned (map (fun row => row ++ [32; 111; Z.of_N (r mod 256)%N])
                      (arg_input_ids args)),
          N.succ r)
       else
         (Returned (map (fun row => row ++ [32; 111; 107])
                      (arg_input_ids args)), r)).

Definition cfg : Config := mkConfig (py "gpt2") 50 500.

Definition loaded : Globals := mkGlobals (Some lm) (Some tok).

Definition w0 : World := mkWorld 7%N [].


(** [{"prompt": "Hi"}] *)
Definition body_hi : list (pystr * PyVal) := [(py "prompt", PStr (py "Hi"))].

(** [{"prompt": "Hi", "do_sample": false}] *)
Definition body_hi_greedy : list (pystr * PyVal) :=
  [(py "prompt", PStr (py "Hi")); (py "do_sample", PBool false)].

(** [{"prompt": "Hi", "max_tokens": 900}] and its clamped form. *)
Definition body_hi_900 : list (pystr * PyVal) :=
  [(py "prompt", PStr (py "Hi")); (py "max_tokens", PInt 900)].

(** [{"prompt": "Hi", "max_tokens": "many"}] *)
Definition body_hi_many : list (pystr * PyVal) :=
  [(py "prompt", PStr (py "Hi")); (py "max_tokens", PStr (py "many"))].

(** [{"max_tokens": 10}] *)
Definition body_no_prompt : list (pystr * PyVal) :=
  [(py "max_tokens", PInt 10)].

End Toy.

(** ** Start-up: [load_model] and the [__main__] block *)

(** [str(n)] for an [int]. *)
Definition py_str_int (n : Z) : pystr :=
  py (DecimalString.NilZero.string_of_int (Z.to_int n)).

(** What a call made at start-up can do.  It returns; or it raises an
    exception derived from [Exception], which the [except Exception]
    clauses of lines 42 and 136 catch; or it raises one that is not
    ([SystemExit], [KeyboardInterrupt]), which neither clause catches, so
    that it ends the process: [status] is the exit status the interpreter
    then gives it. *)
Inductive Attempt (A : Type) : Type :=
| Done (a : A)
| Failed (e : PyExc)
| Escaped (status : Z).
Arguments Done {A} a.
Arguments Failed {A} e.
Arguments Escaped {A} status.

(** What the model library offers at start-up: the two [from_pretrained]
    constructors, and the effect of the two attribute assignments of lines
    38-39 on the objects they are made on. *)
Record Library : Type := mkLibrary {
  tokenizer_from_pretrained : pystr -> Attempt Tokenizer;
  model_from_pretrained : pystr -> Attempt Model;
  set_pad_token : Tokenizer -> option pystr -> Tokenizer;
  set_config_pad_token_id_to_eos : Model -> Model
}.

(** What start-up does besides assigning the globals: log lines, calls to
    the library, the call to [app.run]. *)
Inductive StartupEvent : Type :=
| SInfo (msg : pystr)
| SError (msg : pystr)
| STokenizerFromPretrained (name : pystr)
| SModelFromPretrained (name : pystr)
| SAppRun (host : pystr) (port : Z).

(** [load_model()]: its outcome (it re-raises what it caught, and does not
    catch what is not an [Exception]), the globals after it, and what it
    did. *)
Definition load_model (lib : Library) (cfg : Config) (g : Globals)
  : Attempt unit * Globals * list StartupEvent :=
  let name := MODEL_NAME cfg in
  let failed (e : PyExc) :=
    SError (py "Failed to load model " ++ name ++ py ": " ++ exc_str e) in
  let tr0 := [SInfo (py "Loading model: " ++ name);
              STokenizerFromPretrained name] in
  match tokenizer_from_pretrained lib name with
  | Failed e => (Failed e, g, tr0 ++ [failed e])
  | Escaped status => (Escaped status, g, tr0)
  | Done tk =>
      let g1 := mkGlobals (model g) (Some tk) in
      let tr1 := tr0 ++ [SModelFromPretrained name] in
      match model_from_pretrained lib name with
      | Failed e => (Failed e, g1, tr1 ++ [failed e])
      | Escaped status => (Escaped status, g1, tr1)
      | Done m =>
          let g2 :=
            match pad_token tk with
            | None =>
                mkGlobals (Some (set_config_pad_token_id_to_eos lib m))
                  (Some (set_pad_token lib tk (eos_token tk)))
            | Some _ => mkGlobals (Some m) (Some tk)
            end in
          (Done tt, g2,
           tr1 ++ [SInfo (py "Model " ++ name ++ py " loaded successfully")])
      end
  end.

(** The [__main__] block, for the [HOST] and [PORT] of the environment;
    [app_run] is what [app.run(...)] does when it is reached (it returns
    when the server stops).  The result is the exit status of the process
    (0 when the block runs to its end, 1 from [exit(1)] of line 139, and
    the interpreter's own when an exception is not caught), the globals the
    server ran with, and what was done. *)
Definition main (lib : Library) (cfg : Config) (HOST : pystr) (PORT : Z)
    (app_run : Attempt unit) (g : Globals)
  : Z * Globals * list StartupEvent :=
  let handler (e : PyExc) :=
    [SError (py "Failed to start server: " ++ exc_str e);
     SError (py "Make sure you have internet connection and the model name is correct in .env file")] in
  match load_model lib cfg g with
  | (Failed e, g', tr) => (1, g', tr ++ handler e)
  | (Escaped status, g', tr) => (status, g', tr)
  | (Done _, g', tr) =>
      let tr' :=
        tr ++ [SInfo (py "Starting server on " ++ HOST ++ py ":"
                      ++ py_str_int PORT);
               SAppRun HOST PORT] in
      match app_run with
      | Failed e => (1, g', tr' ++ handler e)
      | Escaped status => (status, g', tr')
      | Done _ => (0, g', tr')
      end
  end.

(** Whether start-up reached [app.run]. *)
Definition server_started (tr : list StartupEvent) : bool :=
  existsb (fun ev => match ev with SAppRun _ _ => true | _ => false end) tr.

(** Whether start-up logged an error. *)
Definition startup_error_logged (tr : list StartupEvent) : bool :=
  existsb (fun ev => match ev with SError _ => true | _ => false end) tr.

(** ** Shapes of runs and of strings *)

(** The only orders in which [generate] may call its collaborators and log:
    tokenizer, then generator, then decoder, each at most once, with at most
    one error logged, at the end. *)
Definition protocol_ok (tr : list Event) : bool :=
  match tr with
  | [] => true
  | [LogError _] => true
  | [CallTokenizer _; LogError _] => true
  | [CallTokenizer _; CallGenerate _; LogError _] => true
  | [CallTokenizer _; CallGenerate _; CallDecode _] => true
  | [CallTokenizer _; CallGenerate _; CallDecode _; LogError _] => true
  | _ => false
  end.

(** Whether an error was logged. *)
Definition error_logged (tr : list Event) : bool :=
  existsb (fun ev => match ev with LogError _ => true | _ => false end) tr.

(** A string that neither starts nor ends with whitespace. *)
Definition trimmed (s : pystr) : Prop :=
  match s with
  | [] => True
  | c :: _ => py_isspace c = false /\ py_isspace (last s c) = false
  end.

(** How a run of [generate] from [w] may end in [res]: having done nothing
    (model not loaded, body or prompt rejected), in the [except] clause, or
    with a 200 answer; [tr] is what the run added to the log. *)
Definition ends_in_shape (cfg : Config) (w : World) (res : Response * World)
  : Prop :=
  exists tr rg,
    res = (fst res, mkWorld rg (events w ++ tr))
    /\ (forall b,
          In b (generator_budgets tr) ->
          py_gt_int b (MAX_TOKENS_LIMIT cfg) = Returned false)
    /\ (generator_invoked tr = false -> rg = rng w)
    /\ let r := fst res in
       (tr = []
        /\ (r = json_error (py "Model not loaded") 500
            \/ r = json_error (py "No JSON data provided") 400
            \/ r = json_error (py "No prompt provided") 400))
       \/ (exists e,
             r = json_error (py "Generation failed: " ++ exc_str e) 500
             /\ let logged :=
                  LogError (py "Error generating text: " ++ exc_str e) in
                (tr = [logged]
                 \/ (exists p, tr = [CallTokenizer p; logged])
                 \/ (exists p a,
                       tr = [CallTokenizer p; CallGenerate a; logged])
                 \/ (exists p a ids,
                       tr = [CallTokenizer p; CallGenerate a; CallDecode ids;
                             logged])))
       \/ (status r = 200
           /\ map fst (body r)
              = [py "response"; py "full_text"; py "model";
                 py "tokens_generated"]
           /\ dict_get (py "model") (body r) = Some (PStr (MODEL_NAME cfg))
           /\ exists p a ids,
                tr = [CallTokenizer p; CallGenerate a; CallDecode ids]).

Module Fixtures.

(** A library that loads the small tokenizer and model; a tokenizer loaded
    without padding token gets the token [p] and the id 255 when one is
    set. *)
Definition tok_no_pad : Tokenizer :=
  mkTokenizer (tok_call Toy.tok) (tok_decode Toy.tok) 256 1024
    None (Some (py "<|endoftext|>")) None.

Definition set_pad (tk : Tokenizer) (p : option pystr) : Tokenizer :=
  mkTokenizer (tok_call tk) (tok_decode tk) (vocab_size tk)
    (model_max_length tk) p (eos_token tk)
    (match p with Some _ => Some 255 | None => None end).

Definition lib : Library :=
  mkLibrary (fun _ => Done tok_no_pad) (fun _ => Done Toy.lm)
    set_pad (fun m => m).

(** A library whose model cannot be fetched. *)
Definition lib_no_model : Library :=
  mkLibrary (fun _ => Done tok_no_pad)
    (fun _ => Failed (mkExc (py "OSError") (py "gpt2 is not a local folder")))
    set_pad (fun m => m).

(** A library whose tokenizer cannot be fetched. *)
Definition lib_no_tokenizer : Library :=
  mkLibrary
    (fun _ => Failed (mkExc (py "OSError") (py "gpt2 is not a local folder")))
    (fun _ => Done Toy.lm) set_pad (fun m => m).

(** A library whose model download is interrupted from the keyboard. *)
Definition lib_interrupted : Library :=
  mkLibrary (fun _ => Done tok_no_pad) (fun _ => Escaped 130)
    set_pad (fun m => m).

(** The two exceptions as the pinned framework raises them when the
    application does not run in debug mode. *)
Definition flask : Framework :=
  mkFramework
    (mkExc (py "UnsupportedMediaType")
       (py "415 Unsupported Media Type: Did not attempt to load JSON data because the request Content-Type was not 'application/json'."))
    (mkExc (py "BadRequest")
       (py "400 Bad Request: The browser (or proxy) sent a request that this server could not understand.")).

(** A tokenizer that raises on every text, and one whose decoder raises. *)
Definition tok_raising : Tokenizer :=
  mkTokenizer
    (fun _ => Raised (mkExc (py "ValueError") (py "cannot encode")))
    (tok_decode Toy.tok) 256 1024 None None None.

Definition tok_bad_decode : Tokenizer :=
  mkTokenizer (tok_call Toy.tok)
    (fun _ => Raised (mkExc (py "ValueError") (py "cannot decode")))
    256 1024 None None None.

(** A tokenizer whose decoder keeps the first token only. *)
Definition tok_short : Tokenizer :=
  mkTokenizer (tok_call Toy.tok)
    (fun ids => Returned (map Z.to_N (firstn 1 ids)))
    256 1024 None None None.

(** A model whose generator raises. *)
Definition lm_raising : Model :=
  mkModel
    (fun r _ => (Raised (mkExc (py "RuntimeError") (py "out of memory")), r)).

(** [{"prompt": 0, "max_tokens": 10}] *)
Definition body_prompt_zero : list (pystr * PyVal) :=
  [(py "prompt", PInt 0); (py "max_tokens", PInt 10)].


End Fixtures.

(** * The set-up script [setup.py]

    The script works on the file system and runs [pip] through
    [subprocess.check_call]; what prints, which commands run and in which
    order, and which files exist are the state of the embedding.  The host
    (interpreter, version, outcome of each command and of each import) is a
    parameter. *)

Module Setup.

(** The check mark and the cross that start many of the printed lines. *)
Definition check_mark : pystr := [10003%N].
Definition cross_mark : pystr := [10007%N].

(** A command line, as the list given to [subprocess.check_call]. *)
Definition Cmd := list pystr.

(** The host of a run.  [check_call ran cmd] is the outcome of
    [subprocess.check_call(cmd)] after the commands [ran]; [try_import ran
    name] that of [import name]; the two [is_*] fields are the
    [isinstance] tests of the [except] clauses; [version_info] is
    [sys.version_info] (major, minor, micro); [in_venv] is the value of the
    expression of line 156; [copy_error] is what [shutil.copy] raises, if
    anything, and [copy_written] how far it got before raising: [None] when
    the destination was not opened, [Some n] when it was opened for writing
    (which creates or truncates it) and [n] characters were written. *)
Record Host : Type := mkHost {
  executable : pystr;
  version_info : Z * Z * Z;
  in_venv : bool;
  check_call : list Cmd -> Cmd -> Outcome unit;
  is_called_process_error : PyExc -> bool;
  try_import : list Cmd -> pystr -> Outcome unit;
  is_import_error : PyExc -> bool;
  copy_error : option PyExc;
  copy_written : option nat
}.

(** The state of a run: the files of the working directory with their
    contents, the commands run so far, the lines printed so far. *)
Record Machine : Type := mkMachine {
  files : list (pystr * pystr);
  ran : list Cmd;
  printed : list pystr
}.

Definition Sh (A : Type) : Type := Machine -> Outcome A * Machine.

Definition sret {A} (a : A) : Sh A := fun s => (Returned a, s).

Definition sbind {A B} (c : Sh A) (k : A -> Sh B) : Sh B :=
  fun s =>
    match c s with
    | (Returned a, s') => k a s'
    | (Raised e, s') => (Raised e, s')
    end.

Declare Scope sh_scope.
Delimit Scope sh_scope with sh.
Notation "x <~ c ;; k" := (sbind c (fun x => k))
  (at level 61, c at next level, right associativity) : sh_scope.
Notation "c ;;; k" := (sbind c (fun _ => k))
  (at level 61, right associativity) : sh_scope.
Local Open Scope sh_scope.

(** [try: body except cls as e: handler e], where [is_cls] is the
    [isinstance] test of the clause. *)
Definition try_catch {A} (is_cls : PyExc -> bool) (body : Sh A)
    (handler : PyExc -> Sh A) : Sh A :=
  fun s =>
    match body s with
    | (Raised e, s') => if is_cls e then handler e s' else (Raised e, s')
    | r => r
    end.

(** [for x in l: body x] *)
Fixpoint for_each {A} (l : list A) (body : A -> Sh unit) : Sh unit :=
  match l with
  | [] => sret tt
  | x :: l' => body x ;;; for_each l' body
  end.

(** [print(line)] *)
Definition print (line : pystr) : Sh unit :=
  fun s => (Returned tt, mkMachine (files s) (ran s) (printed s ++ [line])).

(** The files after writing [content] to [path]. *)
Fixpoint write_file (path content : pystr) (fs : list (pystr * pystr))
  : list (pystr * pystr) :=
  match fs with
  | [] => [(path, content)]
  | (p, c) :: fs' =>
      if pystr_eqb path p then (p, content) :: fs'
      else (p, c) :: write_file path content fs'
  end.

Fixpoint read_file (path : pystr) (fs : list (pystr * pystr)) : option pystr :=
  match fs with
  | [] => None
  | (p, c) :: fs' => if pystr_eqb path p then Some c else read_file path fs'
  end.

(** [os.path.exists(path)] *)
Definition path_exists (path : pystr) (s : Machine) : bool :=
  match read_file path (files s) with
  | Some _ => true
  | None => false
  end.

Definition exists_ (path : pystr) : Sh bool :=
  fun s => (Returned (path_exists path s), s).

(** [sys.version_info < (3, 8)] is a comparison of tuples: lexicographic,
    a proper prefix being smaller. *)
Fixpoint tuple_lt (a b : list Z) : bool :=
  match a, b with
  | _, [] => false
  | [], _ :: _ => true
  | x :: a', y :: b' =>
      if x <? y then true else if y <? x then false else tuple_lt a' b'
  end.

(** ["=" * 50] *)
Definition rule : pystr := repeat 61%N 50.

Section Script.

Variable h : Host.

(** [shutil.copy(src, dst)]: it opens [src], then opens [dst] for writing
    and copies the content across.  When it raises, [dst] is as it was if
    it had not been opened, and holds what was written so far if it had. *)
Definition shutil_copy (src dst : pystr) : Sh unit :=
  fun s =>
    match read_file src (files s) with
    | None =>
        (Raised (mkExc (py "FileNotFoundError")
                   (py "[Errno 2] No such file or directory: '" ++ src
                    ++ py "'")), s)
    | Some c =>
        match copy_error h with
        | Some e =>
            (Raised e,
             match copy_written h with
             | Some n =>
                 mkMachine (write_file dst (firstn n c) (files s)) (ran s)
                   (printed s)
             | None => s
             end)
        | None =>
            (Returned tt,
             mkMachine (write_file dst c (files s)) (ran s) (printed s))
        end
    end.

(** [subprocess.check_call(cmd)] *)
Definition run_cmd (cmd : Cmd) : Sh unit :=
  fun s =>
    (check_call h (ran s) cmd,
     mkMachine (files s) (ran s ++ [cmd]) (printed s)).

(** [import name] *)
Definition import_ (name : pystr) : Sh unit :=
  fun s => (try_import h (ran s) name, s).

(** [[sys.executable, '-m', 'pip', 'install'] + args] *)
Definition pip_install (args : list pystr) : Cmd :=
  [executable h; py "-m"; py "pip"; py "install"] ++ args.

Definition create_env_file : Sh bool :=
  env <~ exists_ (py ".env") ;;
  if negb env then
    example <~ exists_ (py "example.env") ;;
    if example then
      shutil_copy (py "example.env") (py ".env") ;;;
      print (check_mark ++ py " Created .env file from example.env") ;;;
      sret true
    else
      print (cross_mark ++ py " example.env not found") ;;;
      sret false
  else
    print (check_mark ++ py " .env file already exists") ;;;
    sret true.

Definition basic_packages : list pystr :=
  [py "flask==2.3.3"; py "python-dotenv==1.0.0"; py "requests==2.31.0"].

Definition install_basic_packages : Sh bool :=
  print (py "Installing basic packages...") ;;;
  try_catch (is_called_process_error h)
    (run_cmd (pip_install [py "--upgrade"; py "pip"]) ;;;
     for_each basic_packages
       (fun package =>
          print (py "Installing " ++ package ++ py "...") ;;;
          run_cmd (pip_install [package])) ;;;
     print (check_mark ++ py " Basic packages installed successfully") ;;;
     sret true)
    (fun e =>
       print (cross_mark ++ py " Failed to install basic packages: "
              ++ exc_str e) ;;;
       sret false).

Definition torch_index : list pystr :=
  [py "--index-url"; py "https://download.pytorch.org/whl/cpu"].

Definition remaining_packages : list pystr :=
  [py "accelerate==0.20.3"; py "protobuf==3.20.3"].

(** A [try] with a pinned install and, in its [except] clause, a second
    [try] with the unpinned one; the result is whether the function goes
    on ([False]: it returns [False]). *)
Definition install_ml_packages : Sh bool :=
  print (py "Installing ML packages...") ;;;
  torch <~
    try_catch (is_called_process_error h)
      (print (py "Installing PyTorch...") ;;;
       run_cmd (pip_install (py "torch==2.0.1" :: torch_index)) ;;;
       print (check_mark ++ py " PyTorch installed successfully") ;;;
       sret true)
      (fun _ =>
         print (py "Trying alternative PyTorch installation...") ;;;
         try_catch (is_called_process_error h)
           (run_cmd (pip_install (py "torch" :: torch_index)) ;;;
            print (check_mark
                   ++ py " PyTorch installed successfully (alternative method)") ;;;
            sret true)
           (fun e =>
              print (cross_mark ++ py " Failed to install PyTorch: "
                     ++ exc_str e) ;;;
              sret false)) ;;
  if negb torch then sret false else
  transformers <~
    try_catch (is_called_process_error h)
      (print (py "Installing transformers...") ;;;
       run_cmd (pip_install [py "transformers==4.30.2"]) ;;;
       print (check_mark ++ py " Transformers installed successfully") ;;;
       sret true)
      (fun _ =>
         print (py "Trying alternative transformers installation...") ;;;
         try_catch (is_called_process_error h)
           (run_cmd (pip_install [py "transformers"]) ;;;
            print (check_mark
                   ++ py " Transformers installed successfully (alternative method)") ;;;
            sret true)
           (fun e =>
              print (cross_mark ++ py " Failed to install transformers: "
                     ++ exc_str e) ;;;
              sret false)) ;;
  if negb transformers then sret false else
  for_each remaining_packages
    (fun package =>
       try_catch (is_called_process_error h)
         (print (py "Installing " ++ package ++ py "...") ;;;
          run_cmd (pip_install [package]))
         (fun e =>
            print (py "Warning: Failed to install " ++ package ++ py ": "
                   ++ exc_str e) ;;;
            print (py "Continuing with other packages..."))) ;;;
  print (check_mark ++ py " ML packages installation completed") ;;;
  sret true.

Definition install_dependencies : Sh bool :=
  req <~ exists_ (py "requirements.txt") ;;
  if negb req then
    print (cross_mark ++ py " requirements.txt not found") ;;;
    sret false
  else
    print (py "Installing dependencies in phases...") ;;;
    basic <~ install_basic_packages ;;
    if negb basic then sret false else
    ml <~ install_ml_packages ;;
    if negb ml then
      print (py "Warning: Some ML packages failed to install") ;;;
      print (py "Trying to install all requirements at once as fallback...") ;;;
      try_catch (is_called_process_error h)
        (run_cmd (pip_install [py "-r"; py "requirements.txt"]) ;;;
         print (check_mark
                ++ py " Dependencies installed successfully via fallback method") ;;;
         sret true)
        (fun e =>
           print (cross_mark ++ py " Failed to install dependencies: "
                  ++ exc_str e) ;;;
           sret false)
    else sret true.

Definition test_basic_imports : Sh bool :=
  try_catch (is_import_error h)
    (print (py "Testing basic imports...") ;;;
     import_ (py "flask") ;;;
     import_ (py "dotenv") ;;;
     import_ (py "requests") ;;;
     print (check_mark ++ py " Basic imports successful") ;;;
     sret true)
    (fun e =>
       print (cross_mark ++ py " Basic imports failed: " ++ exc_str e) ;;;
       sret false).

Definition test_ml_imports : Sh bool :=
  try_catch (is_import_error h)
    (print (py "Testing ML imports...") ;;;
     import_ (py "torch") ;;;
     import_ (py "transformers") ;;;
     print (check_mark ++ py " ML imports successful") ;;;
     sret true)
    (fun e =>
       print (py "Warning: ML imports failed: " ++ exc_str e) ;;;
       print (py "The basic Flask app will still work, but ML features may be limited") ;;;
       sret false).

Definition check_python_version : Sh bool :=
  let '(major, minor, micro) := version_info h in
  if tuple_lt [major; minor; micro] [3; 8] then
    print (cross_mark ++ py " Python 3.8 or higher is required") ;;;
    sret false
  else
    print (check_mark ++ py " Python " ++ py_str_int major ++ py "."
           ++ py_str_int minor ++ py "." ++ py_str_int micro
           ++ py " detected") ;;;
    sret true.

Definition check_virtual_environment : Sh bool :=
  (if in_venv h then
     print (check_mark ++ py " Virtual environment detected")
   else
     print (py "Warning: Not in a virtual environment. Consider using one to avoid conflicts.")) ;;;
  sret true.

(** A line that starts with a newline: ["\n" + line]. *)
Definition nl (line : pystr) : pystr := 10%N :: line.

(** [main()]: [Some 1] is [sys.exit(1)], [None] the normal return. *)
Definition main : Sh (option Z) :=
  print (py "Setting up Flask LLM API...") ;;;
  print rule ;;;
  version_ok <~ check_python_version ;;
  if negb version_ok then sret (Some 1) else
  check_virtual_environment ;;;
  env_ok <~ create_env_file ;;
  if negb env_ok then sret (Some 1) else
  installed <~ install_dependencies ;;
  if negb installed then
    print (nl rule) ;;;
    print (py "Installation encountered issues!") ;;;
    print (py "Try running these commands manually:") ;;;
    print (py "  pip install --upgrade pip") ;;;
    print (py "  pip install flask python-dotenv requests") ;;;
    print (py "  pip install torch --index-url https://download.pytorch.org/whl/cpu") ;;;
    print (py "  pip install transformers") ;;;
    sret (Some 1)
  else
    test_basic_imports ;;;
    test_ml_imports ;;;
    print (nl rule) ;;;
    print (py "Setup completed successfully!") ;;;
    print (nl (py "To start the server:")) ;;;
    print (py "  python app.py") ;;;
    print (nl (py "To test the API:")) ;;;
    print (py "  python test_api.py") ;;;
    print (nl (py "To customize the model, edit the .env file")) ;;;
    print (nl (py "If you encounter any issues, try:")) ;;;
    print (py "  pip install --upgrade pip") ;;;
    print (py "  pip install -r requirements.txt") ;;;
    sret None.

(** The commands of the script, by name. *)
Definition basic_commands : list Cmd :=
  pip_install [py "--upgrade"; py "pip"]
  :: map (fun package => pip_install [package]) basic_packages.

Definition fallback_command : Cmd :=
  pip_install [py "-r"; py "requirements.txt"].

(** [not (sys.version_info < (3, 8))] *)
Definition version_supported : bool :=
  let '(major, minor, micro) := version_info h in
  negb (tuple_lt [major; minor; micro] [3; 8]).

End Script.

(** The commands a run added to those of [s]. *)
Definition ran_since (s s' : Machine) : list Cmd :=
  skipn (List.length (ran s)) (ran s').

(** What an installer does to the machine: it only runs commands and
    prints; when it returns [False], the last command run raised
    [CalledProcessError]. *)
Definition installer_trace (h : Host) (s : Machine)
    (res : Outcome bool * Machine) (on_true : list Cmd -> Prop) : Prop :=
  exists cs pr',
    snd res = mkMachine (files s) (ran s ++ cs) pr'
    /\ match fst res with
       | Returned true => on_true cs
       | Returned false =>
           exists pre cmd e,
             cs = pre ++ [cmd]
             /\ check_call h (ran s ++ pre) cmd = Raised e
             /\ is_called_process_error h e = true
       | Raised e => is_called_process_error h e = false
       end.



(** A host on which every command and every import succeeds, and one on
    which the pinned [torch] cannot be installed. *)
Definition host_ok : Host :=
  mkHost (py "python3") (3, 11, 4) true
    (fun _ _ => Returned tt) (fun _ => true)
    (fun _ _ => Returned tt) (fun _ => true) None None.

Definition failed_cmd : PyExc :=
  mkExc (py "CalledProcessError") (py "returned non-zero exit status 1.").

Definition host_no_pinned_torch : Host :=
  mkHost (py "python3") (3, 11, 4) true
    (fun _ cmd =>
       if existsb (pystr_eqb (py "torch==2.0.1")) cmd then Raised failed_cmd
       else Returned tt)
    (fun _ => true) (fun _ _ => Returned tt) (fun _ => true) None None.





(** A fresh checkout: [example.env] and [requirements.txt], no [.env]. *)
Definition checkout : Machine :=
  mkMachine
    [(py "example.env", py "model_name=gpt2");
     (py "requirements.txt", py "flask==2.3.3")] [] [].


End Setup.

(** ** Basic facts *)

Arguments py s : simpl never.

Lemma pystr_eqb_eq (a b : pystr) : pystr_eqb a b = true <-> a = b.
Proof.
  revert b; induction a as [|x a IH]; intros [|y b]; simpl;
    try (split; [discriminate | discriminate]); try tauto.
  rewrite andb_true_iff, N.eqb_eq, IH.
  split; [intros [-> ->]; reflexivity | intros H; inversion H; auto].
Qed.

Lemma skipn_length_app {A} (l l' : list A) :
  skipn (List.length l) (l ++ l') = l'.
Proof. induction l; simpl; auto. Qed.

Lemma calls_since_app (r r' : Rng) (l tr : list Event) :
  calls_since (mkWorld r l) (mkWorld r' (l ++ tr)) = tr.
Proof. unfold calls_since; simpl; apply skipn_length_app. Qed.

Lemma calls_since_refl (w : World) : calls_since w w = [].
Proof. unfold calls_since; apply skipn_all. Qed.

Lemma calls_since_snoc (w : World) (r' : Rng) (ev : Event) :
  calls_since w (mkWorld r' (events w ++ [ev])) = [ev].
Proof. destruct w; apply calls_since_app. Qed.

Lemma dict_get_nonempty k d v : dict_get k d = Some v -> truthy (PDict d) = true.
Proof. destruct d; simpl; [discriminate | reflexivity]. Qed.

Lemma dict_get_or_some k d default v :
  dict_get k d = Some v -> dict_get_or k d default = v.
Proof. unfold dict_get_or; intros ->; reflexivity. Qed.

Lemma dict_get_or_none k d default :
  dict_get k d = None -> dict_get_or k d default = default.
Proof. unfold dict_get_or; intros ->; reflexivity. Qed.


Lemma py_gt_int_number v n :
  is_number v = true -> exists b, py_gt_int v n = Returned b.
Proof. destruct v; simpl; try discriminate; eauto. Qed.

Lemma py_gt_int_not_number v n :
  is_number v = false ->
  py_gt_int v n
  = Raised (mkExc (py "TypeError")
              (py "'>' not supported between instances of '" ++ type_name v
               ++ py "' and 'int'")).
Proof. destruct v; simpl; try discriminate; reflexivity. Qed.

(** ** The paths through [generate] *)

Section Paths.

Variables (cfg : Config) (g : Globals) (m : Model) (tk : Tokenizer).
Hypothesis Hm : model g = Some m.
Hypothesis Htk : tokenizer g = Some tk.

Lemma generate_raised_json (e : PyExc) (w : World) :
  generate cfg g (Raised e) w = on_exception e w.
Proof. unfold generate, try_except, bind, lift; rewrite Hm, Htk; reflexivity. Qed.

Lemma generate_falsy_body (data : PyVal) (w : World) :
  truthy data = false ->
  generate cfg g (Returned data) w
  = (json_error (py "No JSON data provided") 400, w).
Proof.
  intros Hd; unfold generate, try_except, bind, lift.
  rewrite Hm, Htk, Hd; reflexivity.
Qed.

Lemma generate_raised_get (data : PyVal) (w : World) :
  truthy data = true -> (forall d, data <> PDict d) ->
  generate cfg g (Returned data) w
  = on_exception
      (mkExc (py "AttributeError")
         (py "'" ++ type_name data ++ py "' object has no attribute 'get'")) w.
Proof.
  intros Ht Hd.
  unfold generate, try_except, bind, lift.
  rewrite Hm, Htk, Ht.
  destruct data; try reflexivity.
  exfalso; eapply Hd; reflexivity.
Qed.

Lemma generate_falsy_prompt (d : list (pystr * PyVal)) (w : World) :
  truthy (PDict d) = true ->
  truthy (dict_get_or (py "prompt") d (PStr (py ""))) = false ->
  generate cfg g (Returned (PDict d)) w
  = (json_error (py "No prompt provided") 400, w).
Proof.
  intros Ht Hp.
  unfold generate, try_except, bind, lift, py_get.
  rewrite Hm, Htk, Ht, Hp; reflexivity.
Qed.

Lemma generate_raised_gt (d : list (pystr * PyVal)) (prompt : PyVal)
    (e : PyExc) (w : World) :
  dict_get (py "prompt") d = Some prompt -> truthy prompt = true ->
  py_gt_int (requested_max_tokens cfg d) (MAX_TOKENS_LIMIT cfg) = Raised e ->
  generate cfg g (Returned (PDict d)) w = on_exception e w.
Proof.
  intros Hp Ht Hgt.
  unfold generate, try_except, bind, lift, py_get.
  rewrite Hm, Htk, (dict_get_nonempty _ _ _ Hp).
  rewrite (dict_get_or_some _ _ _ _ Hp), Ht.
  unfold requested_max_tokens in Hgt; rewrite Hgt.
  reflexivity.
Qed.

Lemma generate_validated (d : list (pystr * PyVal)) (prompt : PyVal)
    (over : bool) (w : World) :
  dict_get (py "prompt") d = Some prompt -> truthy prompt = true ->
  py_gt_int (requested_max_tokens cfg d) (MAX_TOKENS_LIMIT cfg)
  = Returned over ->
  generate cfg g (Returned (PDict d)) w
  = try_except
      (run_generation cfg m tk prompt
         (if over then PInt (MAX_TOKENS_LIMIT cfg)
          else requested_max_tokens cfg d)
         (dict_get_or (py "do_sample") d (PBool true))
         (dict_get_or (py "temperature") d (PFloat float_one))
         (dict_get_or (py "top_p") d (PFloat float_one)))
      on_exception w.
Proof.
  intros Hp Ht Hgt.
  unfold generate, try_except, bind, lift, py_get.
  rewrite Hm, Htk, (dict_get_nonempty _ _ _ Hp).
  rewrite (dict_get_or_some _ _ _ _ Hp), Ht.
  unfold requested_max_tokens in Hgt; rewrite Hgt.
  reflexivity.
Qed.

End Paths.

Lemma generate_unloaded (cfg : Config) (g : Globals)
    (get_json : Outcome PyVal) (w : World) :
  model g = None \/ tokenizer g = None ->
  generate cfg g get_json w = (json_error (py "Model not loaded") 500, w).
Proof.
  unfold generate, try_except.
  intros [H | H]; rewrite H; [|destruct (model g)]; reflexivity.
Qed.

(** ** The run of [run_generation] under the [except] clause *)

Section Run.

Variables (cfg : Config) (m : Model) (tk : Tokenizer).
Variables (prompt max_tokens do_sample temperature top_p : PyVal).

Let args (enc : Encoding) : GenArgs :=
  mkGenArgs (input_ids enc) max_tokens do_sample temperature top_p
    (pad_token_id tk) (attention_mask enc).

Let run : World -> Response * World :=
  try_except
    (run_generation cfg m tk prompt max_tokens do_sample temperature top_p)
    on_exception.

Ltac unfold_run :=
  unfold run, try_except, run_generation, bind, call_tokenizer, call_generate,
    call_decode, emit, lift, ret, on_exception; simpl.

Ltac failed H H200 :=
  inversion H; subst; simpl in H200; discriminate H200.

(** A 200 answer means that every step returned. *)
Lemma run_generation_inv (w w' : World) (r : Response) :
  run w = (r, w') -> status r = 200 ->
  exists enc outs r' out0 text n in0,
    tok_call tk prompt = Returned enc
    /\ m_generate m (rng w) (args enc) = (Returned outs, r')
    /\ row0 outs = Returned out0
    /\ tok_decode tk out0 = Returned text
    /\ py_len prompt = Returned n
    /\ row0 (input_ids enc) = Returned in0
    /\ r = mkResponse 200
             [(py "response", PStr (strip (slice_from n text)));
              (py "full_text", PStr text);
              (py "model", PStr (MODEL_NAME cfg));
              (py "tokens_generated",
               PInt (Z.of_nat (List.length out0) - Z.of_nat (List.length in0)))]
    /\ calls_since w w'
       = [CallTokenizer prompt; CallGenerate (args enc); CallDecode out0].
Proof.
  destruct w as [r0 l]; unfold_run.
  intros H H200.
  destruct (tok_call tk prompt) as [e|enc] eqn:E1; [failed H H200|].
  fold (args enc) in H.
  destruct (m_generate m r0 (args enc)) as [[e|outs] r'] eqn:E2;
    [failed H H200|].
  destruct (row0 outs) as [e|out0] eqn:E3; [failed H H200|].
  destruct (tok_decode tk out0) as [e|text] eqn:E4; [failed H H200|].
  destruct (py_len prompt) as [e|n] eqn:E5; [failed H H200|].
  destruct (row0 (input_ids enc)) as [e|in0] eqn:E6; [failed H H200|].
  inversion H; subst; clear H.
  exists enc, outs, r', out0, text, n, in0.
  repeat split; try assumption.
  rewrite <- !app_assoc; apply calls_since_app.
Qed.


(** The response depends on the world only through what the generator
    returns from the state of the random generator. *)
Lemma run_generation_response (w1 w2 : World) :
  (forall enc,
     fst (m_generate m (rng w1) (args enc))
     = fst (m_generate m (rng w2) (args enc))) ->
  fst (run w1) = fst (run w2).
Proof.
  intros H; unfold_run.
  destruct (tok_call tk prompt) as [e|enc]; [reflexivity|].
  specialize (H enc); unfold args in H.
  destruct (m_generate m (rng w1) _) as [o1 r1].
  destruct (m_generate m (rng w2) _) as [o2 r2].
  simpl in H; subst o2.
  destruct o1 as [e|outs]; [reflexivity|].
  destruct (row0 outs) as [e|out0]; [reflexivity|].
  destruct (tok_decode tk out0) as [e|text]; [reflexivity|].
  destruct (py_len prompt) as [e|n]; [reflexivity|].
  destruct (row0 (input_ids enc)) as [e|in0]; reflexivity.
Qed.

End Run.

(** A 200 answer of [generate] comes from a loaded model, an object body with
    a truthy prompt and an orderable [max_tokens], and a run of
    [run_generation] that answered 200. *)
Lemma generate_success_inv (cfg : Config) (g : Globals)
    (get_json : Outcome PyVal) (w w' : World) (r : Response) :
  generate cfg g get_json w = (r, w') -> status r = 200 ->
  exists m tk d prompt over,
    model g = Some m /\ tokenizer g = Some tk
    /\ get_json = Returned (PDict d)
    /\ dict_get (py "prompt") d = Some prompt /\ truthy prompt = true
    /\ py_gt_int (requested_max_tokens cfg d) (MAX_TOKENS_LIMIT cfg)
       = Returned over
    /\ try_except
         (run_generation cfg m tk prompt
            (if over then PInt (MAX_TOKENS_LIMIT cfg)
             else requested_max_tokens cfg d)
            (dict_get_or (py "do_sample") d (PBool true))
            (dict_get_or (py "temperature") d (PFloat float_one))
            (dict_get_or (py "top_p") d (PFloat float_one)))
         on_exception w = (r, w').
Proof.
  intros H H200.
  assert (Hfail : forall c x, (c, x) = (r, w') -> status c <> 200 -> False)
    by (intros c x E Hc; inversion E; subst; contradiction).
  destruct (model g) as [m|] eqn:Hm;
    [|rewrite generate_unloaded in H by (left; assumption);
      exfalso; eapply Hfail; [exact H | discriminate]].
  destruct (tokenizer g) as [tk|] eqn:Htk;
    [|rewrite generate_unloaded in H by (right; assumption);
      exfalso; eapply Hfail; [exact H | discriminate]].
  destruct get_json as [e|data];
    [rewrite (generate_raised_json cfg g m tk Hm Htk) in H;
     exfalso; eapply Hfail; [exact H | discriminate]|].
  destruct (truthy data) eqn:Hd;
    [|rewrite (generate_falsy_body cfg g m tk Hm Htk) in H by assumption;
      exfalso; eapply Hfail; [exact H | discriminate]].
  destruct data as [| | | | |l|d];
    try (rewrite (generate_raised_get cfg g m tk Hm Htk) in H
           by (assumption || (intros; discriminate));
         exfalso; eapply Hfail; [exact H | discriminate]).
  destruct (dict_get (py "prompt") d) as [prompt|] eqn:Hp;
    [|rewrite (generate_falsy_prompt cfg g m tk Hm Htk) in H
        by (assumption || (rewrite dict_get_or_none by assumption; reflexivity));
      exfalso; eapply Hfail; [exact H | discriminate]].
  destruct (truthy prompt) eqn:Ht;
    [|rewrite (generate_falsy_prompt cfg g m tk Hm Htk) in H
        by (assumption
            || (rewrite (dict_get_or_some _ _ _ _ Hp); assumption));
      exfalso; eapply Hfail; [exact H | discriminate]].
  destruct (py_gt_int (requested_max_tokens cfg d) (MAX_TOKENS_LIMIT cfg))
    as [e|over] eqn:Hgt;
    [rewrite (generate_raised_gt cfg g m tk Hm Htk d prompt e) in H
       by assumption;
     exfalso; eapply Hfail; [exact H | discriminate]|].
  rewrite (generate_validated cfg g m tk Hm Htk d prompt over) in H
    by assumption.
  exists m, tk, d, prompt, over; repeat split; assumption.
Qed.

(** ** The token budget *)







(** C10: with the model loaded, an object body and a non-empty prompt, a
    [max_tokens] that is present but is not a number ([None], a [str], a
    [list], a [dict]) makes the comparison with the limit raise [TypeError];
    the [except] clause turns it into 500 with an [error] field that starts
    with ["Generation failed: "], logs it, and no collaborator is called. *)
Theorem generate_max_tokens_not_comparable (cfg : Config) (g : Globals)
    (m : Model) (tk : Tokenizer) (d : list (pystr * PyVal))
    (prompt v : PyVal) (w : World) :
  model g = Some m -> tokenizer g = Some tk ->
  dict_get (py "prompt") d = Some prompt -> truthy prompt = true ->
  dict_get (py "max_tokens") d = Some v -> is_number v = false ->
  exists e,
    py_gt_int v (MAX_TOKENS_LIMIT cfg) = Raised e
    /\ exc_class e = py "TypeError"
    /\ let (r, w') := generate cfg g (Returned (PDict d)) w in
       status r = 500
       /\ body r = [(py "error", PStr (py "Generation failed: " ++ exc_str e))]
       /\ calls_since w w'
          = [LogError (py "Error generating text: " ++ exc_str e)].
Proof.
  intros Hm Htk Hp Ht Hv Hn.
  pose proof (py_gt_int_not_number v (MAX_TOKENS_LIMIT cfg) Hn) as Hgt.
  eexists; split; [exact Hgt|]; split; [reflexivity|].
  rewrite (generate_raised_gt cfg g m tk Hm Htk d prompt _ w Hp Ht)
    by (unfold requested_max_tokens;
        rewrite (dict_get_or_some _ _ _ _ Hv); exact Hgt).
  unfold on_exception; repeat split.
  apply calls_since_snoc.
Qed.

Lemma generate_max_tokens_not_comparable_witness :
  exists e,
    py_gt_int (PStr (py "many")) 500 = Raised e
    /\ exc_class e = py "TypeError"
    /\ let (r, w') :=
         generate Toy.cfg Toy.loaded (Returned (PDict Toy.body_hi_many)) Toy.w0
       in
       status r = 500
       /\ body r = [(py "error", PStr (py "Generation failed: " ++ exc_str e))]
       /\ calls_since Toy.w0 w'
          = [LogError (py "Error generating text: " ++ exc_str e)].
Proof.
  exact (generate_max_tokens_not_comparable Toy.cfg Toy.loaded Toy.lm Toy.tok
           Toy.body_hi_many (PStr (py "Hi")) (PStr (py "many")) Toy.w0
           eq_refl eq_refl eq_refl eq_refl eq_refl eq_refl).
Defined.

(** ** The availability check *)

(** C9: while [model] or [tokenizer] is [None], [POST /generate] answers 500
    [{"error": "Model not loaded"}] whatever [request.get_json()] would give
    (a value, an empty or missing body, an exception): the check comes first,
    so the answer is never the 400 of the validation, and the handler calls
    and logs nothing. *)
Theorem generate_model_not_loaded (cfg : Config) (g : Globals)
    (get_json : Outcome PyVal) (w : World) :
  model g = None \/ tokenizer g = None ->
  let (r, w') := generate cfg g get_json w in
  status r = 500
  /\ body r = [(py "error", PStr (py "Model not loaded"))]
  /\ status r <> 400
  /\ w' = w.
Proof.
  intros H; rewrite (generate_unloaded cfg g get_json w H).
  repeat split; discriminate.
Qed.

Lemma generate_model_not_loaded_witness :
  (let (r, w') := generate Toy.cfg initial_globals (Returned (PDict [])) Toy.w0 in
   status r = 500
   /\ body r = [(py "error", PStr (py "Model not loaded"))]
   /\ status r <> 400
   /\ w' = Toy.w0)
  /\ (let (r, w') :=
        generate Toy.cfg (mkGlobals (Some Toy.lm) None)
          (Returned (PDict Toy.body_no_prompt)) Toy.w0 in
      status r = 500
      /\ body r = [(py "error", PStr (py "Model not loaded"))]
      /\ status r <> 400
      /\ w' = Toy.w0).
Proof.
  split.
  - exact (generate_model_not_loaded Toy.cfg initial_globals
             (Returned (PDict [])) Toy.w0 (or_introl eq_refl)).
  - exact (generate_model_not_loaded Toy.cfg (mkGlobals (Some Toy.lm) None)
             (Returned (PDict Toy.body_no_prompt)) Toy.w0 (or_intror eq_refl)).
Defined.

(** C7: [GET /model-info] answers 500 [{"error": "Model not loaded"}] while
    [model] or [tokenizer] is [None], and 200 with exactly the fields
    [model_name], [vocab_size], [model_max_length], [pad_token] and
    [eos_token], read from the configuration and the tokenizer, once both
    are set. *)
Theorem model_info_spec (cfg : Config) (g : Globals) :
  (model g = None \/ tokenizer g = None ->
   model_info cfg g
   = mkResponse 500 [(py "error", PStr (py "Model not loaded"))])
  /\ (forall m tk,
        model g = Some m -> tokenizer g = Some tk ->
        model_info cfg g
        = mkResponse 200
            [(py "model_name", PStr (MODEL_NAME cfg));
             (py "vocab_size", PInt (vocab_size tk));
             (py "model_max_length", PInt (model_max_length tk));
             (py "pad_token", opt_str (pad_token tk));
             (py "eos_token", opt_str (eos_token tk))]).
Proof.
  unfold model_info; split.
  - intros [H | H]; rewrite H; [|destruct (model g)]; reflexivity.
  - intros m tk Hm Htk; rewrite Hm, Htk; reflexivity.
Qed.

Lemma model_info_spec_witness :
  model_info Toy.cfg initial_globals
  = mkResponse 500 [(py "error", PStr (py "Model not loaded"))]
  /\ model_info Toy.cfg Toy.loaded
     = mkResponse 200
         [(py "model_name", PStr (py "gpt2"));
          (py "vocab_size", PInt 256);
          (py "model_max_length", PInt 1024);
          (py "pad_token", PStr (py "<|endoftext|>"));
          (py "eos_token", PStr (py "<|endoftext|>"))].
Proof.
  split.
  - exact (proj1 (model_info_spec Toy.cfg initial_globals) (or_introl eq_refl)).
  - exact (proj2 (model_info_spec Toy.cfg Toy.loaded) Toy.lm Toy.tok
             eq_refl eq_refl).
Defined.

(** ** Validation of the body and of the prompt *)

(** C4, against the code: with the model loaded, a request that carries no
    JSON payload does not get 400 [{"error": "No JSON data provided"}].
    [request.get_json()] raises for it (whether the request has no JSON
    content type or a body that does not parse), the [if not data] test of
    line 65 is never reached, and the [except] clause of line 110 answers
    500 ["Generation failed: " + str(e)] and logs the error. *)
Theorem generate_without_json_payload (cfg : Config) (g : Globals)
    (m : Model) (tk : Tokenizer) (fw : Framework) (p : Payload) (w : World) :
  model g = Some m -> tokenizer g = Some tk ->
  p = NoJson \/ p = Unparsable ->
  exists e,
    request_get_json fw p = Raised e
    /\ generate cfg g (request_get_json fw p) w
       = (mkResponse 500
            [(py "error", PStr (py "Generation failed: " ++ exc_str e))],
          mkWorld (rng w)
            (events w
             ++ [LogError (py "Error generating text: " ++ exc_str e)]))
    /\ fst (generate cfg g (request_get_json fw p) w)
       <> mkResponse 400 [(py "error", PStr (py "No JSON data provided"))].
Proof.
  intros Hm Htk Hp.
  assert (H : exists e, request_get_json fw p = Raised e)
    by (destruct Hp as [-> | ->]; eexists; reflexivity).
  destruct H as (e & He); exists e; rewrite He.
  rewrite (generate_raised_json cfg g m tk Hm Htk).
  split; [reflexivity|]; split; [reflexivity|].
  unfold on_exception, json_error; simpl; intros H; discriminate H.
Qed.

Lemma generate_without_json_payload_witness :
  generate Toy.cfg Toy.loaded (request_get_json Fixtures.flask NoJson) Toy.w0
  = (mkResponse 500
       [(py "error",
         PStr (py "Generation failed: 415 Unsupported Media Type: Did not attempt to load JSON data because the request Content-Type was not 'application/json'."))],
     mkWorld 7%N
       [LogError (py "Error generating text: 415 Unsupported Media Type: Did not attempt to load JSON data because the request Content-Type was not 'application/json'.")])
  /\ status (fst (generate Toy.cfg Toy.loaded
                    (request_get_json Fixtures.flask NoJson) Toy.w0)) <> 400.
Proof.
  destruct (generate_without_json_payload Toy.cfg Toy.loaded Toy.lm Toy.tok
              Fixtures.flask NoJson Toy.w0 eq_refl eq_refl
              (or_introl eq_refl)) as (e & He & Hrun & _).
  injection He as <-.
  split; [exact Hrun|].
  rewrite Hrun; simpl; discriminate.
Defined.

(** X30: the branch of lines 65-66.  With the model loaded, a request for
    which [request.get_json()] returns a value that [not data] accepts
    ([None] for the JSON [null], the empty object [{}], and the other falsy
    values) gets exactly 400 [{"error": "No JSON data provided"}]; the
    handler calls and logs nothing. *)
Theorem generate_no_json_data (cfg : Config) (g : Globals) (m : Model)
    (tk : Tokenizer) (data : PyVal) (w : World) :
  model g = Some m -> tokenizer g = Some tk ->
  data = PNone \/ data = PDict [] \/ truthy data = false ->
  generate cfg g (Returned data) w
  = (mkResponse 400 [(py "error", PStr (py "No JSON data provided"))], w).
Proof.
  intros Hm Htk Hd.
  apply (generate_falsy_body cfg g m tk Hm Htk).
  destruct Hd as [-> | [-> | H]]; [reflexivity | reflexivity | exact H].
Qed.

Lemma generate_no_json_data_witness :
  generate Toy.cfg Toy.loaded (Returned (PDict [])) Toy.w0
  = (mkResponse 400 [(py "error", PStr (py "No JSON data provided"))], Toy.w0)
  /\ generate Toy.cfg Toy.loaded (Returned PNone) Toy.w0
     = (mkResponse 400 [(py "error", PStr (py "No JSON data provided"))],
        Toy.w0).
Proof.
  split.
  - exact (generate_no_json_data Toy.cfg Toy.loaded Toy.lm Toy.tok (PDict [])
             Toy.w0 eq_refl eq_refl (or_intror (or_introl eq_refl))).
  - exact (generate_no_json_data Toy.cfg Toy.loaded Toy.lm Toy.tok PNone
             Toy.w0 eq_refl eq_refl (or_introl eq_refl)).
Defined.

(** C3, as stated, fails: the JSON body [[1]] is present and has no
    [prompt] key, yet [data.get] raises [AttributeError] on a list and the
    answer is the 500 of the [except] clause, not 400. *)
Lemma generate_missing_prompt_counterexample :
  model Toy.loaded = Some Toy.lm /\ tokenizer Toy.loaded = Some Toy.tok
  /\ truthy (PList [PInt 1]) = true
  /\ body_key (PList [PInt 1]) (py "prompt") = None
  /\ fst (generate Toy.cfg Toy.loaded (Returned (PList [PInt 1])) Toy.w0)
     = mkResponse 500
         [(py "error",
           PStr (py "Generation failed: 'list' object has no attribute 'get'"))]
  /\ status (fst (generate Toy.cfg Toy.loaded (Returned (PList [PInt 1]))
                    Toy.w0)) <> 400.
Proof.
  repeat split; try reflexivity.
  vm_compute; discriminate.
Qed.

(** C3, amended: with the model loaded and a JSON object as body, a request
    whose [prompt] key is absent or holds the empty string gets 400 with a
    body made of an [error] field alone, and the handler calls and logs
    nothing: the generator is never invoked. *)
Theorem generate_missing_prompt (cfg : Config) (g : Globals) (m : Model)
    (tk : Tokenizer) (d : list (pystr * PyVal)) (w : World) :
  model g = Some m -> tokenizer g = Some tk ->
  dict_get (py "prompt") d = None
  \/ dict_get (py "prompt") d = Some (PStr (py "")) ->
  let (r, w') := generate cfg g (Returned (PDict d)) w in
  status r = 400
  /\ (exists msg, body r = [(py "error", PStr msg)])
  /\ w' = w
  /\ generator_invoked (calls_since w w') = false.
Proof.
  intros Hm Htk Hp.
  assert (Hfalsy : truthy (dict_get_or (py "prompt") d (PStr (py ""))) = false).
  { destruct Hp as [Hp | Hp].
    - rewrite (dict_get_or_none _ _ _ Hp); reflexivity.
    - rewrite (dict_get_or_some _ _ _ _ Hp); reflexivity. }
  destruct (truthy (PDict d)) eqn:Hd.
  - rewrite (generate_falsy_prompt cfg g m tk Hm Htk d w Hd Hfalsy).
    repeat split; [eexists; reflexivity | rewrite calls_since_refl; reflexivity].
  - rewrite (generate_falsy_body cfg g m tk Hm Htk (PDict d) w Hd).
    repeat split; [eexists; reflexivity | rewrite calls_since_refl; reflexivity].
Qed.

Lemma generate_missing_prompt_witness :
  (let (r, w') :=
     generate Toy.cfg Toy.loaded (Returned (PDict Toy.body_no_prompt)) Toy.w0 in
   status r = 400
   /\ (exists msg, body r = [(py "error", PStr msg)])
   /\ w' = Toy.w0
   /\ generator_invoked (calls_since Toy.w0 w') = false)
  /\ (let (r, w') :=
        generate Toy.cfg Toy.loaded
          (Returned (PDict [(py "prompt", PStr (py ""))])) Toy.w0 in
      status r = 400
      /\ (exists msg, body r = [(py "error", PStr msg)])
      /\ w' = Toy.w0
      /\ generator_invoked (calls_since Toy.w0 w') = false).
Proof.
  split.
  - exact (generate_missing_prompt Toy.cfg Toy.loaded Toy.lm Toy.tok
             Toy.body_no_prompt Toy.w0 eq_refl eq_refl (or_introl eq_refl)).
  - exact (generate_missing_prompt Toy.cfg Toy.loaded Toy.lm Toy.tok
             [(py "prompt", PStr (py ""))] Toy.w0 eq_refl eq_refl
             (or_intror eq_refl)).
Defined.

(** ** The shape of a successful answer *)

(** C2, as stated, fails: for [{"prompt": "Hi", "do_sample": false}] the
    decoded text is ["Hi ok"], its slice from [len("Hi")] is [" ok"], and
    the [response] field is ["ok"]: the slice went through [strip()]. *)
Lemma generate_response_counterexample :
  let r := fst (generate Toy.cfg Toy.loaded
                  (Returned (PDict Toy.body_hi_greedy)) Toy.w0) in
  status r = 200
  /\ dict_get (py "prompt") Toy.body_hi_greedy = Some (PStr (py "Hi"))
  /\ tok_decode Toy.tok [72; 105; 32; 111; 107] = Returned (py "Hi ok")
  /\ dict_get (py "full_text") (body r) = Some (PStr (py "Hi ok"))
  /\ slice_from (List.length (py "Hi")) (py "Hi ok") = py " ok"
  /\ dict_get (py "response") (body r) = Some (PStr (py "ok"))
  /\ dict_get (py "response") (body r)
     <> Some (PStr (slice_from (List.length (py "Hi")) (py "Hi ok"))).
Proof.
  repeat split; try reflexivity.
  vm_compute; discriminate.
Qed.

(** C2, amended: in every 200 answer of [POST /generate], [response] is the
    decoded text (the one [full_text] carries, decoded from the first output
    sequence) without its first [len(prompt)] characters and then stripped of
    leading and trailing whitespace: [decoded[len(prompt):].strip()]. *)
Theorem generate_response_text (cfg : Config) (g : Globals)
    (get_json : Outcome PyVal) (w w' : World) (r : Response) :
  generate cfg g get_json w = (r, w') -> status r = 200 ->
  exists tk d prompt n ids decoded,
    tokenizer g = Some tk
    /\ get_json = Returned (PDict d)
    /\ dict_get (py "prompt") d = Some prompt
    /\ py_len prompt = Returned n
    /\ In (CallDecode ids) (calls_since w w')
    /\ tok_decode tk ids = Returned decoded
    /\ dict_get (py "full_text") (body r) = Some (PStr decoded)
    /\ dict_get (py "response") (body r)
       = Some (PStr (strip (slice_from n decoded))).
Proof.
  intros H H200.
  destruct (generate_success_inv cfg g get_json w w' r H H200)
    as (m & tk & d & prompt & over & Hm & Htk & Hj & Hp & Ht & Hgt & Hrun).
  destruct (run_generation_inv _ _ _ _ _ _ _ _ _ _ _ Hrun H200)
    as (enc & outs & r' & out0 & text & n & in0
        & E1 & E2 & E3 & E4 & E5 & E6 & Hr & Hw).
  exists tk, d, prompt, n, out0, text.
  rewrite Hw, Hr.
  repeat split; try assumption; try reflexivity.
  simpl; auto.
Qed.

Lemma generate_response_text_witness :
  exists tk d prompt n ids decoded,
    tokenizer Toy.loaded = Some tk
    /\ Returned (PDict Toy.body_hi_greedy) = Returned (PDict d)
    /\ dict_get (py "prompt") d = Some prompt
    /\ py_len prompt = Returned n
    /\ In (CallDecode ids)
         (calls_since Toy.w0
            (snd (generate Toy.cfg Toy.loaded
                    (Returned (PDict Toy.body_hi_greedy)) Toy.w0)))
    /\ tok_decode tk ids = Returned decoded
    /\ dict_get (py "full_text")
         (body (fst (generate Toy.cfg Toy.loaded
                       (Returned (PDict Toy.body_hi_greedy)) Toy.w0)))
       = Some (PStr decoded)
    /\ dict_get (py "response")
         (body (fst (generate Toy.cfg Toy.loaded
                       (Returned (PDict Toy.body_hi_greedy)) Toy.w0)))
       = Some (PStr (strip (slice_from n decoded))).
Proof.
  exact (generate_response_text Toy.cfg Toy.loaded
           (Returned (PDict Toy.body_hi_greedy)) Toy.w0 _ _
           (surjective_pairing _) eq_refl).
Defined.

(** C6: in every 200 answer of [POST /generate], [tokens_generated] is the
    length of the first output sequence of the generator minus the length of
    the first sequence of the encoded prompt, the one the generator was
    given. *)
Theorem generate_tokens_generated (cfg : Config) (g : Globals)
    (get_json : Outcome PyVal) (w w' : World) (r : Response) :
  generate cfg g get_json w = (r, w') -> status r = 200 ->
  exists m tk prompt enc args outs r' out0 in0,
    model g = Some m /\ tokenizer g = Some tk
    /\ calls_since w w'
       = [CallTokenizer prompt; CallGenerate args; CallDecode out0]
    /\ tok_call tk prompt = Returned enc
    /\ arg_input_ids args = input_ids enc
    /\ row0 (input_ids enc) = Returned in0
    /\ m_generate m (rng w) args = (Returned outs, r')
    /\ row0 outs = Returned out0
    /\ dict_get (py "tokens_generated") (body r)
       = Some (PInt (Z.of_nat (List.length out0) - Z.of_nat (List.length in0))).
Proof.
  intros H H200.
  destruct (generate_success_inv cfg g get_json w w' r H H200)
    as (m & tk & d & prompt & over & Hm & Htk & Hj & Hp & Ht & Hgt & Hrun).
  destruct (run_generation_inv _ _ _ _ _ _ _ _ _ _ _ Hrun H200)
    as (enc & outs & r' & out0 & text & n & in0
        & E1 & E2 & E3 & E4 & E5 & E6 & Hr & Hw).
  eexists m, tk, prompt, enc, _, outs, r', out0, in0.
  rewrite Hr.
  repeat split; try eassumption; reflexivity.
Qed.

Lemma generate_tokens_generated_witness :
  exists m tk prompt enc args outs r' out0 in0,
    model Toy.loaded = Some m /\ tokenizer Toy.loaded = Some tk
    /\ calls_since Toy.w0
         (snd (generate Toy.cfg Toy.loaded (Returned (PDict Toy.body_hi_900))
                 Toy.w0))
       = [CallTokenizer prompt; CallGenerate args; CallDecode out0]
    /\ tok_call tk prompt = Returned enc
    /\ arg_input_ids args = input_ids enc
    /\ row0 (input_ids enc) = Returned in0
    /\ m_generate m (rng Toy.w0) args = (Returned outs, r')
    /\ row0 outs = Returned out0
    /\ dict_get (py "tokens_generated")
         (body (fst (generate Toy.cfg Toy.loaded
                       (Returned (PDict Toy.body_hi_900)) Toy.w0)))
       = Some (PInt (Z.of_nat (List.length out0) - Z.of_nat (List.length in0))).
Proof.
  exact (generate_tokens_generated Toy.cfg Toy.loaded
           (Returned (PDict Toy.body_hi_900)) Toy.w0 _ _
           (surjective_pairing _) eq_refl).
Defined.

(** ** Determinism without sampling *)

(** C8: against one loaded model whose generator does not draw from the
    random generator when [do_sample] is [False], two [POST /generate] calls
    with the same body and [do_sample=false] get the same response, whatever
    the state of the random generator and the log at the time of each
    call. *)
Theorem generate_deterministic_without_sampling (cfg : Config) (g : Globals)
    (d : list (pystr * PyVal)) (w1 w2 : World) :
  (forall m, model g = Some m -> greedy_deterministic m) ->
  dict_get (py "do_sample") d = Some (PBool false) ->
  fst (generate cfg g (Returned (PDict d)) w1)
  = fst (generate cfg g (Returned (PDict d)) w2).
Proof.
  intros Hdet Hds.
  destruct (model g) as [m|] eqn:Hm;
    [|rewrite !generate_unloaded by (left; assumption); reflexivity].
  destruct (tokenizer g) as [tk|] eqn:Htk;
    [|rewrite !generate_unloaded by (right; assumption); reflexivity].
  pose proof (dict_get_nonempty _ _ _ Hds) as Hd.
  destruct (dict_get (py "prompt") d) as [prompt|] eqn:Hp;
    [|rewrite !(generate_falsy_prompt cfg g m tk Hm Htk)
        by (assumption || (rewrite dict_get_or_none by assumption; reflexivity));
      reflexivity].
  destruct (truthy prompt) eqn:Ht;
    [|rewrite !(generate_falsy_prompt cfg g m tk Hm Htk)
        by (assumption
            || (rewrite (dict_get_or_some _ _ _ _ Hp); assumption));
      reflexivity].
  destruct (py_gt_int (requested_max_tokens cfg d) (MAX_TOKENS_LIMIT cfg))
    as [e|over] eqn:Hgt.
  - rewrite !(generate_raised_gt cfg g m tk Hm Htk d prompt e) by assumption.
    reflexivity.
  - rewrite !(generate_validated cfg g m tk Hm Htk d prompt over)
      by assumption.
    apply run_generation_response.
    intros enc; apply (Hdet m eq_refl); simpl.
    apply dict_get_or_some; assumption.
Qed.

Lemma toy_greedy_deterministic : greedy_deterministic Toy.lm.
Proof. intros args r1 r2 H; unfold Toy.lm; simpl; rewrite H; reflexivity. Qed.

Lemma generate_deterministic_without_sampling_witness :
  fst (generate Toy.cfg Toy.loaded (Returned (PDict Toy.body_hi_greedy))
         (mkWorld 7%N []))
  = fst (generate Toy.cfg Toy.loaded (Returned (PDict Toy.body_hi_greedy))
           (mkWorld 8%N [LogError (py "earlier")])).
Proof.
  apply (generate_deterministic_without_sampling Toy.cfg Toy.loaded
           Toy.body_hi_greedy).
  - intros m H; injection H as <-; exact toy_greedy_deterministic.
  - reflexivity.
Defined.

(** With sampling (the default), the same request can get two different
    responses: the hypothesis on [do_sample] is needed. *)
Example generate_sampling_differs :
  fst (generate Toy.cfg Toy.loaded (Returned (PDict Toy.body_hi))
         (mkWorld 7%N []))
  <> fst (generate Toy.cfg Toy.loaded (Returned (PDict Toy.body_hi))
            (mkWorld 8%N [])).
Proof. vm_compute; discriminate. Qed.

(** * Further properties of the handlers and of start-up *)

(** ** [str.strip] *)

Lemma lstrip_spec (s : pystr) :
  exists ws,
    s = ws ++ lstrip s
    /\ forallb py_isspace ws = true
    /\ match lstrip s with [] => True | c :: _ => py_isspace c = false end.
Proof.
  induction s as [|c s (ws & E & Hws & Hhd)]; simpl.
  - exists []; auto.
  - destruct (py_isspace c) eqn:Hc.
    + exists (c :: ws); simpl; rewrite Hc, Hws, <- E; auto.
    + exists []; simpl; auto.
Qed.

Lemma forallb_rev_true {A} (f : A -> bool) (l : list A) :
  forallb f l = true -> forallb f (rev l) = true.
Proof.
  rewrite !forallb_forall; intros H x Hx; apply H, in_rev; assumption.
Qed.

Lemma rstrip_spec (s : pystr) :
  exists ws,
    s = rstrip s ++ ws
    /\ forallb py_isspace ws = true
    /\ match rstrip s with
       | [] => True
       | c :: _ => py_isspace (last (rstrip s) c) = false
       end.
Proof.
  unfold rstrip.
  destruct (lstrip_spec (rev s)) as (ws & E & Hws & Hhd).
  exists (rev ws); repeat split.
  - rewrite <- rev_app_distr, <- E, rev_involutive; reflexivity.
  - apply forallb_rev_true; assumption.
  - destruct (lstrip (rev s)) as [|x y]; simpl; [exact I|].
    destruct (rev y ++ [x]) as [|c t] eqn:Ey; [exact I|].
    rewrite <- Ey, last_last; assumption.
Qed.

Lemma strip_spec (s : pystr) :
  exists ws1 ws2,
    s = ws1 ++ strip s ++ ws2
    /\ forallb py_isspace ws1 = true
    /\ forallb py_isspace ws2 = true
    /\ trimmed (strip s).
Proof.
  unfold strip.
  destruct (lstrip_spec s) as (ws1 & E1 & H1 & Hhd).
  destruct (rstrip_spec (lstrip s)) as (ws2 & E2 & H2 & Hlast).
  exists ws1, ws2; repeat split; try assumption.
  - rewrite <- E2; assumption.
  - unfold trimmed.
    destruct (rstrip (lstrip s)) as [|c t]; [exact I|].
    split; [|assumption].
    rewrite E2 in Hhd; exact Hhd.
Qed.

(** ** Every way a run of [generate] can go *)

Ltac unfold_pipeline :=
  unfold try_except, run_generation, bind, call_tokenizer, call_generate,
    call_decode, emit, lift, ret, on_exception; simpl.

Section Shape.

Variables (cfg : Config) (m : Model) (tk : Tokenizer).
Variables (prompt max_tokens do_sample temperature top_p : PyVal).

Let run : World -> Response * World :=
  try_except
    (run_generation cfg m tk prompt max_tokens do_sample temperature top_p)
    on_exception.

Ltac close_failed e :=
  do 2 eexists; split; [reflexivity|];
  split; [simpl; intuition congruence|];
  split; [simpl; try reflexivity; discriminate|];
  right; exists e; split; [reflexivity|]; cbv zeta; eauto 6.

Lemma run_generation_shape (w : World) :
  exists tr rg,
    run w = (fst (run w), mkWorld rg (events w ++ tr))
    /\ (forall b, In b (generator_budgets tr) -> b = max_tokens)
    /\ (generator_invoked tr = false -> rg = rng w)
    /\ ((status (fst (run w)) = 200
         /\ map fst (body (fst (run w)))
            = [py "response"; py "full_text"; py "model";
               py "tokens_generated"]
         /\ dict_get (py "model") (body (fst (run w)))
            = Some (PStr (MODEL_NAME cfg))
         /\ exists a ids,
              tr = [CallTokenizer prompt; CallGenerate a; CallDecode ids])
        \/ (exists e,
              fst (run w)
              = json_error (py "Generation failed: " ++ exc_str e) 500
              /\ let logged :=
                   LogError (py "Error generating text: " ++ exc_str e) in
                 (tr = [CallTokenizer prompt; logged]
                  \/ (exists a,
                        tr = [CallTokenizer prompt; CallGenerate a; logged])
                  \/ (exists a ids,
                        tr = [CallTokenizer prompt; CallGenerate a;
                              CallDecode ids; logged])))).
Proof.
  destruct w as [r0 l]; unfold run; unfold_pipeline.
  destruct (tok_call tk prompt) as [e|enc];
    [simpl; rewrite <- ?app_assoc; simpl; close_failed e|].
  destruct (m_generate m r0 _) as [[e|outs] r'];
    [simpl; rewrite <- ?app_assoc; simpl; close_failed e|].
  destruct (row0 outs) as [e|out0];
    [simpl; rewrite <- ?app_assoc; simpl; close_failed e|].
  destruct (tok_decode tk out0) as [e|text];
    [simpl; rewrite <- ?app_assoc; simpl; close_failed e|].
  destruct (py_len prompt) as [e|n];
    [simpl; rewrite <- ?app_assoc; simpl; close_failed e|].
  destruct (row0 (input_ids enc)) as [e|in0];
    [simpl; rewrite <- ?app_assoc; simpl; close_failed e|].
  simpl; rewrite <- ?app_assoc; simpl.
  do 2 eexists; split; [reflexivity|].
  split; [simpl; intuition congruence|].
  split; [simpl; discriminate|].
  left; repeat split; eauto.
Qed.

End Shape.

Lemma world_eta (w : World) : w = mkWorld (rng w) (events w ++ []).
Proof. destruct w; simpl; rewrite app_nil_r; reflexivity. Qed.

Lemma on_exception_eq (e : PyExc) (w : World) :
  on_exception e w
  = (json_error (py "Generation failed: " ++ exc_str e) 500,
     mkWorld (rng w)
       (events w ++ [LogError (py "Error generating text: " ++ exc_str e)])).
Proof. reflexivity. Qed.

Lemma py_gt_int_limit (n : Z) : py_gt_int (PInt n) n = Returned false.
Proof. simpl; rewrite Z.gtb_ltb, Z.ltb_irrefl; reflexivity. Qed.

(** The three ways [generate] can end. *)
Lemma generate_shape (cfg : Config) (g : Globals) (get_json : Outcome PyVal)
    (w : World) :
  ends_in_shape cfg w (generate cfg g get_json w).
Proof.
  assert (Hquiet : forall r,
            generate cfg g get_json w = (r, w) ->
            r = json_error (py "Model not loaded") 500
            \/ r = json_error (py "No JSON data provided") 400
            \/ r = json_error (py "No prompt provided") 400 ->
            ends_in_shape cfg w (generate cfg g get_json w)).
  { intros r E Hr; exists [], (rng w); rewrite E; simpl.
    split; [rewrite <- world_eta; reflexivity|].
    split; [intros b []|]; split; [reflexivity|].
    left; split; [reflexivity | exact Hr]. }
  assert (Hraised : forall e,
            generate cfg g get_json w = on_exception e w ->
            ends_in_shape cfg w (generate cfg g get_json w)).
  { intros e E; rewrite E, on_exception_eq; unfold ends_in_shape; simpl.
    do 2 eexists; split; [reflexivity|].
    split; [intros b []|]; split; [reflexivity|].
    right; left; exists e; split; [reflexivity|]; left; reflexivity. }
  destruct (model g) as [m|] eqn:Hm;
    [|eapply Hquiet; [apply generate_unloaded; left; assumption | auto]].
  destruct (tokenizer g) as [tk|] eqn:Htk;
    [|eapply Hquiet; [apply generate_unloaded; right; assumption | auto]].
  destruct get_json as [e|data];
    [apply (Hraised e), (generate_raised_json cfg g m tk Hm Htk)|].
  destruct (truthy data) eqn:Hd;
    [|eapply Hquiet;
      [apply (generate_falsy_body cfg g m tk Hm Htk); assumption | auto]].
  destruct data as [| | | | |l|d];
    try (eapply Hraised, (generate_raised_get cfg g m tk Hm Htk);
         [assumption | intros; discriminate]).
  assert (Hp0 : forall p, dict_get_or (py "prompt") d (PStr (py "")) = p ->
                truthy p = false ->
                generate cfg g (Returned (PDict d)) w
                = (json_error (py "No prompt provided") 400, w))
    by (intros p <- Hf;
        apply (generate_falsy_prompt cfg g m tk Hm Htk); assumption).
  destruct (dict_get (py "prompt") d) as [prompt|] eqn:Hp;
    [|eapply Hquiet;
      [eapply Hp0; [apply dict_get_or_none; assumption | reflexivity] | auto]].
  destruct (truthy prompt) eqn:Ht;
    [|eapply Hquiet;
      [eapply Hp0; [apply dict_get_or_some; eassumption | assumption] | auto]].
  destruct (py_gt_int (requested_max_tokens cfg d) (MAX_TOKENS_LIMIT cfg))
    as [e|over] eqn:Hgt;
    [eapply Hraised, (generate_raised_gt cfg g m tk Hm Htk); eassumption|].
  clear Hquiet Hraised Hp0.
  rewrite (generate_validated cfg g m tk Hm Htk d prompt over) by assumption.
  destruct (run_generation_shape cfg m tk prompt
              (if over then PInt (MAX_TOKENS_LIMIT cfg)
               else requested_max_tokens cfg d)
              (dict_get_or (py "do_sample") d (PBool true))
              (dict_get_or (py "temperature") d (PFloat float_one))
              (dict_get_or (py "top_p") d (PFloat float_one)) w)
    as (tr & rg & E & Hb & Hrng & Hcases).
  exists tr, rg; split; [exact E|].
  split.
  { intros b Hin; rewrite (Hb b Hin).
    destruct over; [apply py_gt_int_limit | exact Hgt]. }
  split; [exact Hrng|].
  cbv zeta.
  destruct Hcases as [(H200 & Hkeys & Hmodel & a & ids & Htr)
                     |(e & Hr & Htr)].
  - right; right; repeat split; eauto.
  - right; left; exists e; split; [exact Hr|].
    cbv zeta in Htr |- *.
    destruct Htr as [Htr | [(a & Htr) | (a & ids & Htr)]]; eauto 8.
Qed.

Lemma calls_since_ext (w : World) (rg : Rng) (tr : list Event) :
  calls_since w (mkWorld rg (events w ++ tr)) = tr.
Proof. destruct w; apply calls_since_app. Qed.

(** Brings the shape of the run of [generate] on the inputs of the goal
    into the context. *)
Ltac generate_shape_cases cfg g get_json w :=
  let H := fresh "H" in
  let r := fresh "r" in
  let w' := fresh "w'" in
  let E := fresh "E" in
  pose proof (generate_shape cfg g get_json w) as H;
  destruct (generate cfg g get_json w) as [r w'];
  destruct H as (tr & rg & E & Hb & Hrng & Hcases);
  simpl in E; injection E as E; subst w'; cbv zeta in Hcases; simpl in *;
  try rewrite calls_since_ext in *.

(** ** What every answer of [POST /generate] looks like *)

(** X1: whatever the state, the request and the collaborators, the answer of
    [POST /generate] is either a 200 whose body has exactly the fields
    [response], [full_text], [model], [tokens_generated], with [model] the
    configured model name, or a 400 or 500 whose body is one [error] field
    holding a string. *)
Theorem generate_response_shape (cfg : Config) (g : Globals)
    (get_json : Outcome PyVal) (w : World) :
  let r := fst (generate cfg g get_json w) in
  (status r = 200
   /\ map fst (body r)
      = [py "response"; py "full_text"; py "model"; py "tokens_generated"]
   /\ dict_get (py "model") (body r) = Some (PStr (MODEL_NAME cfg)))
  \/ ((status r = 400 \/ status r = 500)
      /\ exists msg, body r = [(py "error", PStr msg)]).
Proof.
  generate_shape_cases cfg g get_json w.
  destruct Hcases as [(_ & [-> | [-> | ->]])
                     |[(e & -> & _) | (H200 & Hkeys & Hmodel & _)]];
    simpl; eauto 6.
Qed.

(** X2: [generate] only appends to the log, and what it appends follows one
    protocol: the tokenizer, then the generator, then the decoder, each
    called at most once and only after the one before, and at most one error
    logged, last. *)
Theorem generate_protocol (cfg : Config) (g : Globals)
    (get_json : Outcome PyVal) (w : World) :
  let w' := snd (generate cfg g get_json w) in
  events w' = events w ++ calls_since w w'
  /\ protocol_ok (calls_since w w') = true.
Proof.
  generate_shape_cases cfg g get_json w.
  split; [reflexivity|].
  destruct Hcases as [(-> & _) | [(e & _ & Htr) | (_ & _ & _ & Htr)]].
  - reflexivity.
  - destruct Htr as [-> | [(p & ->) | [(p & a & ->) | (p & a & ids & ->)]]];
      reflexivity.
  - destruct Htr as (p & a & ids & ->); reflexivity.
Qed.

(** X3: the state of the random generator changes only inside
    [model.generate]: a run of [generate] that does not reach the generator
    leaves it as it was. *)
Theorem generate_rng_untouched (cfg : Config) (g : Globals)
    (get_json : Outcome PyVal) (w : World) :
  let w' := snd (generate cfg g get_json w) in
  generator_invoked (calls_since w w') = false ->
  rng w' = rng w.
Proof.
  generate_shape_cases cfg g get_json w.
  exact Hrng.
Qed.

Lemma generate_rng_untouched_witness :
  rng (snd (generate Toy.cfg Toy.loaded
              (Returned (PDict Toy.body_hi_many)) Toy.w0))
  = rng Toy.w0.
Proof.
  exact (generate_rng_untouched Toy.cfg Toy.loaded
           (Returned (PDict Toy.body_hi_many)) Toy.w0 eq_refl).
Defined.

(** X4: no call to [model.generate] ever gets a budget that compares above
    [MAX_TOKENS_LIMIT]; in particular an [int] budget is at most the
    limit. *)
Theorem generate_budget_within_limit (cfg : Config) (g : Globals)
    (get_json : Outcome PyVal) (w : World) (b : PyVal) :
  In b (generator_budgets
          (calls_since w (snd (generate cfg g get_json w)))) ->
  py_gt_int b (MAX_TOKENS_LIMIT cfg) = Returned false
  /\ forall n, b = PInt n -> n <= MAX_TOKENS_LIMIT cfg.
Proof.
  generate_shape_cases cfg g get_json w.
  intros Hin; specialize (Hb b Hin); split; [exact Hb|].
  intros n ->; simpl in Hb.
  injection Hb as Hb; rewrite Z.gtb_ltb in Hb; apply Z.ltb_ge; exact Hb.
Qed.

Lemma generate_budget_within_limit_witness :
  py_gt_int (PInt 500) (MAX_TOKENS_LIMIT Toy.cfg) = Returned false
  /\ forall n, PInt 500 = PInt n -> n <= MAX_TOKENS_LIMIT Toy.cfg.
Proof.
  exact (generate_budget_within_limit Toy.cfg Toy.loaded
           (Returned (PDict Toy.body_hi_900)) Toy.w0 (PInt 500)
           (or_introl eq_refl)).
Defined.

(** X5: an error is logged exactly when the answer is the 500 of the
    [except] clause, and then the logged text carries the same exception
    text as the [error] field; a 400 answer and the 500 of an unloaded model
    leave the log and the random generator as they were. *)
Theorem generate_logs_iff_failed (cfg : Config) (g : Globals)
    (get_json : Outcome PyVal) (w : World) :
  let r := fst (generate cfg g get_json w) in
  let w' := snd (generate cfg g get_json w) in
  (error_logged (calls_since w w') = true
   /\ exists s,
        r = json_error (py "Generation failed: " ++ s) 500
        /\ last (calls_since w w') (LogError [])
           = LogError (py "Error generating text: " ++ s))
  \/ (error_logged (calls_since w w') = false
      /\ (status r = 200
          \/ (w' = w
              /\ (r = json_error (py "Model not loaded") 500
                  \/ r = json_error (py "No JSON data provided") 400
                  \/ r = json_error (py "No prompt provided") 400)))).
Proof.
  pose proof (world_eta w) as Hw.
  generate_shape_cases cfg g get_json w.
  destruct Hcases as [(-> & Hr) | [(e & -> & Htr) | (H200 & _ & _ & Htr)]].
  - right; split; [reflexivity|]; right; split; [|exact Hr].
    rewrite (Hrng eq_refl); symmetry; exact Hw.
  - left.
    destruct Htr as [-> | [(p & ->) | [(p & a & ->) | (p & a & ids & ->)]]];
      (split; [reflexivity | exists (exc_str e); split; reflexivity]).
  - right; destruct Htr as (p & a & ids & ->); split; [reflexivity|].
    left; exact H200.
Qed.

(** ** A validated request: what reaches the collaborators, and what their
    exceptions turn into *)

Section Validated.

Variables (cfg : Config) (g : Globals) (m : Model) (tk : Tokenizer).
Variables (d : list (pystr * PyVal)) (prompt : PyVal) (over : bool).
Variable w : World.

Hypothesis Hm : model g = Some m.
Hypothesis Htk : tokenizer g = Some tk.
Hypothesis Hp : dict_get (py "prompt") d = Some prompt.
Hypothesis Ht : truthy prompt = true.
Hypothesis Hgt :
  py_gt_int (requested_max_tokens cfg d) (MAX_TOKENS_LIMIT cfg)
  = Returned over.

Let sent (enc : Encoding) : GenArgs :=
  mkGenArgs (input_ids enc)
    (if over then PInt (MAX_TOKENS_LIMIT cfg) else requested_max_tokens cfg d)
    (dict_get_or (py "do_sample") d (PBool true))
    (dict_get_or (py "temperature") d (PFloat float_one))
    (dict_get_or (py "top_p") d (PFloat float_one))
    (pad_token_id tk) (attention_mask enc).

Let logged (e : PyExc) : Event :=
  LogError (py "Error generating text: " ++ exc_str e).

Let failed (e : PyExc) : Response :=
  mkResponse 500 [(py "error", PStr (py "Generation failed: " ++ exc_str e))].


(** X7: when the tokenizer raises [e], the answer is 500 with
    ["Generation failed: " + str(e)], the error is logged, and neither the
    generator nor the decoder is called. *)
Theorem generate_tokenizer_raises (e : PyExc) :
  tok_call tk prompt = Raised e ->
  generate cfg g (Returned (PDict d)) w
  = (failed e,
     mkWorld (rng w) (events w ++ [CallTokenizer prompt; logged e])).
Proof.
  intros Etok.
  rewrite (generate_validated cfg g m tk Hm Htk d prompt over w Hp Ht Hgt).
  unfold_pipeline; rewrite Etok; simpl; rewrite <- app_assoc; reflexivity.
Qed.

(** X8: when the generator raises [e], the answer is 500 with
    ["Generation failed: " + str(e)], the error is logged, the decoder is not
    called, and the random generator is left where the generator left it. *)
Theorem generate_generator_raises (enc : Encoding) (e : PyExc) (r' : Rng) :
  tok_call tk prompt = Returned enc ->
  m_generate m (rng w) (sent enc) = (Raised e, r') ->
  generate cfg g (Returned (PDict d)) w
  = (failed e,
     mkWorld r'
       (events w ++ [CallTokenizer prompt; CallGenerate (sent enc);
                     logged e])).
Proof.
  intros Etok Egen.
  rewrite (generate_validated cfg g m tk Hm Htk d prompt over w Hp Ht Hgt).
  unfold_pipeline; rewrite Etok; fold (sent enc); rewrite Egen; simpl.
  rewrite <- !app_assoc; reflexivity.
Qed.

(** X9: when the decoder raises [e] on the first output sequence, the answer
    is 500 with ["Generation failed: " + str(e)]: the work of the generator
    is lost, and the error is logged after the three calls. *)
Theorem generate_decoder_raises (enc : Encoding) (outs : Tensor2)
    (out0 : list Z) (e : PyExc) (r' : Rng) :
  tok_call tk prompt = Returned enc ->
  m_generate m (rng w) (sent enc) = (Returned outs, r') ->
  row0 outs = Returned out0 ->
  tok_decode tk out0 = Raised e ->
  generate cfg g (Returned (PDict d)) w
  = (failed e,
     mkWorld r'
       (events w ++ [CallTokenizer prompt; CallGenerate (sent enc);
                     CallDecode out0; logged e])).
Proof.
  intros Etok Egen Erow Edec.
  rewrite (generate_validated cfg g m tk Hm Htk d prompt over w Hp Ht Hgt).
  unfold_pipeline; rewrite Etok; fold (sent enc); rewrite Egen, Erow; simpl.
  rewrite Edec; simpl.
  rewrite <- !app_assoc; reflexivity.
Qed.

End Validated.


Lemma generate_tokenizer_raises_witness :
  generate Toy.cfg (mkGlobals (Some Toy.lm) (Some Fixtures.tok_raising))
    (Returned (PDict Toy.body_hi)) Toy.w0
  = (mkResponse 500
       [(py "error", PStr (py "Generation failed: cannot encode"))],
     mkWorld 7%N
       [CallTokenizer (PStr (py "Hi"));
        LogError (py "Error generating text: cannot encode")]).
Proof.
  exact (generate_tokenizer_raises Toy.cfg
           (mkGlobals (Some Toy.lm) (Some Fixtures.tok_raising))
           Toy.lm Fixtures.tok_raising Toy.body_hi (PStr (py "Hi")) false
           Toy.w0 eq_refl eq_refl eq_refl eq_refl eq_refl
           (mkExc (py "ValueError") (py "cannot encode")) eq_refl).
Defined.

Lemma generate_generator_raises_witness :
  generate Toy.cfg (mkGlobals (Some Fixtures.lm_raising) (Some Toy.tok))
    (Returned (PDict Toy.body_hi)) Toy.w0
  = (mkResponse 500
       [(py "error", PStr (py "Generation failed: out of memory"))],
     mkWorld 7%N
       [CallTokenizer (PStr (py "Hi"));
        CallGenerate
          (mkGenArgs [[72; 105]] (PInt 50) (PBool true) (PFloat float_one)
             (PFloat float_one) (Some 255) (Some [[1; 1]]));
        LogError (py "Error generating text: out of memory")]).
Proof.
  exact (generate_generator_raises Toy.cfg
           (mkGlobals (Some Fixtures.lm_raising) (Some Toy.tok))
           Fixtures.lm_raising Toy.tok Toy.body_hi (PStr (py "Hi")) false
           Toy.w0 eq_refl eq_refl eq_refl eq_refl eq_refl
           (mkEncoding [[72; 105]] (Some [[1; 1]]))
           (mkExc (py "RuntimeError") (py "out of memory")) 7%N
           eq_refl eq_refl).
Defined.

Lemma generate_decoder_raises_witness :
  generate Toy.cfg (mkGlobals (Some Toy.lm) (Some Fixtures.tok_bad_decode))
    (Returned (PDict Toy.body_hi_greedy)) Toy.w0
  = (mkResponse 500
       [(py "error", PStr (py "Generation failed: cannot decode"))],
     mkWorld 7%N
       [CallTokenizer (PStr (py "Hi"));
        CallGenerate
          (mkGenArgs [[72; 105]] (PInt 50) (PBool false) (PFloat float_one)
             (PFloat float_one) None (Some [[1; 1]]));
        CallDecode [72; 105; 32; 111; 107];
        LogError (py "Error generating text: cannot decode")]).
Proof.
  exact (generate_decoder_raises Toy.cfg
           (mkGlobals (Some Toy.lm) (Some Fixtures.tok_bad_decode))
           Toy.lm Fixtures.tok_bad_decode Toy.body_hi_greedy (PStr (py "Hi"))
           false Toy.w0 eq_refl eq_refl eq_refl eq_refl eq_refl
           (mkEncoding [[72; 105]] (Some [[1; 1]]))
           [[72; 105; 32; 111; 107]] [72; 105; 32; 111; 107]
           (mkExc (py "ValueError") (py "cannot decode")) 7%N
           eq_refl eq_refl eq_refl eq_refl).
Defined.

(** ** Bodies and prompts of other types *)

(** X10: with the model loaded, an exception raised by
    [request.get_json()] itself (a body that does not parse, a content type
    that the framework refuses) is answered like a failed generation: 500
    with ["Generation failed: " + str(e)], logged, and no collaborator is
    called. *)
Theorem generate_parser_raises (cfg : Config) (g : Globals) (m : Model)
    (tk : Tokenizer) (e : PyExc) (w : World) :
  model g = Some m -> tokenizer g = Some tk ->
  generate cfg g (Raised e) w
  = (mkResponse 500
       [(py "error", PStr (py "Generation failed: " ++ exc_str e))],
     mkWorld (rng w)
       (events w ++ [LogError (py "Error generating text: " ++ exc_str e)])).
Proof.
  intros Hm Htk; rewrite (generate_raised_json cfg g m tk Hm Htk).
  reflexivity.
Qed.

Lemma generate_parser_raises_witness :
  generate Toy.cfg Toy.loaded
    (Raised (mkExc (py "BadRequest") (py "400 Bad Request"))) Toy.w0
  = (mkResponse 500
       [(py "error", PStr (py "Generation failed: 400 Bad Request"))],
     mkWorld 7%N [LogError (py "Error generating text: 400 Bad Request")]).
Proof.
  exact (generate_parser_raises Toy.cfg Toy.loaded Toy.lm Toy.tok
           (mkExc (py "BadRequest") (py "400 Bad Request")) Toy.w0
           eq_refl eq_refl).
Defined.

(** X11: with the model loaded, a JSON body that is not an object and is
    not falsy (a non-empty array or string, a non-zero number, [true]) is
    not rejected by the validation: [data.get] raises [AttributeError], and
    the answer is 500 with
    ["Generation failed: '<type>' object has no attribute 'get'"]. *)
Theorem generate_body_not_object (cfg : Config) (g : Globals) (m : Model)
    (tk : Tokenizer) (data : PyVal) (w : World) :
  model g = Some m -> tokenizer g = Some tk ->
  truthy data = true -> (forall d, data <> PDict d) ->
  let msg := py "'" ++ type_name data ++ py "' object has no attribute 'get'" in
  generate cfg g (Returned data) w
  = (mkResponse 500 [(py "error", PStr (py "Generation failed: " ++ msg))],
     mkWorld (rng w)
       (events w ++ [LogError (py "Error generating text: " ++ msg)])).
Proof.
  intros Hm Htk Ht Hd.
  rewrite (generate_raised_get cfg g m tk Hm Htk data w Ht Hd).
  reflexivity.
Qed.

Lemma generate_body_not_object_witness :
  generate Toy.cfg Toy.loaded (Returned (PStr (py "Hi"))) Toy.w0
  = (mkResponse 500
       [(py "error",
         PStr (py "Generation failed: 'str' object has no attribute 'get'"))],
     mkWorld 7%N
       [LogError
          (py "Error generating text: 'str' object has no attribute 'get'")]).
Proof.
  refine (generate_body_not_object Toy.cfg Toy.loaded Toy.lm Toy.tok
            (PStr (py "Hi")) Toy.w0 eq_refl eq_refl eq_refl _).
  intros d H; discriminate H.
Defined.

(** X12: with the model loaded, a non-empty JSON object whose [prompt] is
    absent or is any falsy value (the empty string, [0], [0.0], [false],
    [null], an empty array or object) gets exactly 400
    [{"error": "No prompt provided"}], and nothing is called or logged. *)
Theorem generate_falsy_prompt_rejected (cfg : Config) (g : Globals)
    (m : Model) (tk : Tokenizer) (d : list (pystr * PyVal)) (w : World) :
  model g = Some m -> tokenizer g = Some tk ->
  d <> [] ->
  (dict_get (py "prompt") d = None
   \/ exists p, dict_get (py "prompt") d = Some p /\ truthy p = false) ->
  generate cfg g (Returned (PDict d)) w
  = (mkResponse 400 [(py "error", PStr (py "No prompt provided"))], w).
Proof.
  intros Hm Htk Hd Hp.
  apply (generate_falsy_prompt cfg g m tk Hm Htk).
  - destruct d; [contradiction | reflexivity].
  - destruct Hp as [Hp | (p & Hp & Hf)].
    + rewrite (dict_get_or_none _ _ _ Hp); reflexivity.
    + rewrite (dict_get_or_some _ _ _ _ Hp); exact Hf.
Qed.

Lemma generate_falsy_prompt_rejected_witness :
  generate Toy.cfg Toy.loaded (Returned (PDict Fixtures.body_prompt_zero))
    Toy.w0
  = (mkResponse 400 [(py "error", PStr (py "No prompt provided"))], Toy.w0).
Proof.
  refine (generate_falsy_prompt_rejected Toy.cfg Toy.loaded Toy.lm Toy.tok
            Fixtures.body_prompt_zero Toy.w0 eq_refl eq_refl _
            (or_intror (ex_intro _ (PInt 0) (conj eq_refl eq_refl)))).
  intros H; discriminate H.
Defined.

(** ** The [response] text *)

(** X13: in every 200 answer, [response] neither starts nor ends with
    whitespace, and the decoded text [full_text] is its first [len(prompt)]
    characters, then whitespace, then [response], then whitespace: nothing
    else of the continuation is dropped. *)
Theorem generate_response_trimmed (cfg : Config) (g : Globals)
    (get_json : Outcome PyVal) (w w' : World) (r : Response) :
  generate cfg g get_json w = (r, w') -> status r = 200 ->
  exists d prompt n text resp ws1 ws2,
    get_json = Returned (PDict d)
    /\ dict_get (py "prompt") d = Some prompt
    /\ py_len prompt = Returned n
    /\ dict_get (py "full_text") (body r) = Some (PStr text)
    /\ dict_get (py "response") (body r) = Some (PStr resp)
    /\ text = firstn n text ++ ws1 ++ resp ++ ws2
    /\ forallb py_isspace ws1 = true
    /\ forallb py_isspace ws2 = true
    /\ trimmed resp.
Proof.
  intros H H200.
  destruct (generate_success_inv cfg g get_json w w' r H H200)
    as (m & tk & d & prompt & over & Hm & Htk & Hj & Hp & Ht & Hgt & Hrun).
  destruct (run_generation_inv _ _ _ _ _ _ _ _ _ _ _ Hrun H200)
    as (enc & outs & r' & out0 & text & n & in0
        & E1 & E2 & E3 & E4 & E5 & E6 & Hr & Hw).
  destruct (strip_spec (slice_from n text)) as (ws1 & ws2 & Es & H1 & H2 & Htr).
  exists d, prompt, n, text, (strip (slice_from n text)), ws1, ws2.
  rewrite Hr; repeat split; try assumption.
  rewrite <- Es; unfold slice_from; symmetry; apply firstn_skipn.
Qed.

Lemma generate_response_trimmed_witness :
  exists d prompt n text resp ws1 ws2,
    Returned (PDict Toy.body_hi_greedy) = Returned (PDict d)
    /\ dict_get (py "prompt") d = Some prompt
    /\ py_len prompt = Returned n
    /\ dict_get (py "full_text")
         (body (fst (generate Toy.cfg Toy.loaded
                       (Returned (PDict Toy.body_hi_greedy)) Toy.w0)))
       = Some (PStr text)
    /\ dict_get (py "response")
         (body (fst (generate Toy.cfg Toy.loaded
                       (Returned (PDict Toy.body_hi_greedy)) Toy.w0)))
       = Some (PStr resp)
    /\ text = firstn n text ++ ws1 ++ resp ++ ws2
    /\ forallb py_isspace ws1 = true
    /\ forallb py_isspace ws2 = true
    /\ trimmed resp.
Proof.
  exact (generate_response_trimmed Toy.cfg Toy.loaded
           (Returned (PDict Toy.body_hi_greedy)) Toy.w0 _ _
           (surjective_pairing _) eq_refl).
Defined.

(** X14: when the decoded text is no longer than the prompt (the slice
    starts at or past its end), a 200 answer carries the empty string as
    [response]: the slice never raises. *)
Theorem generate_response_empty_when_short (cfg : Config) (g : Globals)
    (d : list (pystr * PyVal)) (p text : pystr) (w w' : World)
    (r : Response) :
  generate cfg g (Returned (PDict d)) w = (r, w') -> status r = 200 ->
  dict_get (py "prompt") d = Some (PStr p) ->
  dict_get (py "full_text") (body r) = Some (PStr text) ->
  (List.length text <= List.length p)%nat ->
  dict_get (py "response") (body r) = Some (PStr (py "")).
Proof.
  intros H H200 Hp Hfull Hlen.
  destruct (generate_success_inv cfg g _ w w' r H H200)
    as (m & tk & d' & prompt & over & Hm & Htk & Hj & Hp' & Ht & Hgt & Hrun).
  injection Hj as <-.
  rewrite Hp in Hp'; injection Hp' as <-.
  destruct (run_generation_inv _ _ _ _ _ _ _ _ _ _ _ Hrun H200)
    as (enc & outs & r' & out0 & text' & n & in0
        & E1 & E2 & E3 & E4 & E5 & E6 & Hr & Hw).
  simpl in E5; injection E5 as <-.
  rewrite Hr in Hfull |- *; simpl in Hfull; injection Hfull as ->.
  simpl; unfold slice_from; rewrite skipn_all2 by assumption.
  reflexivity.
Qed.

Lemma generate_response_empty_when_short_witness :
  dict_get (py "response")
    (body (fst (generate Toy.cfg
                  (mkGlobals (Some Toy.lm) (Some Fixtures.tok_short))
                  (Returned (PDict Toy.body_hi_greedy)) Toy.w0)))
  = Some (PStr (py "")).
Proof.
  refine (generate_response_empty_when_short Toy.cfg
            (mkGlobals (Some Toy.lm) (Some Fixtures.tok_short))
            Toy.body_hi_greedy (py "Hi") (py "H") Toy.w0 _ _
            (surjective_pairing _) eq_refl eq_refl eq_refl _).
  apply le_S, le_n.
Defined.

(** ** Start-up *)

(** X15: when both [from_pretrained] calls return, [load_model] returns,
    having called the tokenizer loader and then the model loader once each
    with [MODEL_NAME]; both globals are then set, so [GET /model-info]
    answers 200 and [POST /generate] passes its availability check. *)
Theorem load_model_success (lib : Library) (cfg : Config) (g : Globals)
    (tk : Tokenizer) (m : Model) :
  tokenizer_from_pretrained lib (MODEL_NAME cfg) = Done tk ->
  model_from_pretrained lib (MODEL_NAME cfg) = Done m ->
  let '(out, g', tr) := load_model lib cfg g in
  out = Done tt
  /\ (exists m' tk', model g' = Some m' /\ tokenizer g' = Some tk')
  /\ status (model_info cfg g') = 200
  /\ (forall w, generate cfg g' (Returned PNone) w
                = (json_error (py "No JSON data provided") 400, w))
  /\ tr = [SInfo (py "Loading model: " ++ MODEL_NAME cfg);
           STokenizerFromPretrained (MODEL_NAME cfg);
           SModelFromPretrained (MODEL_NAME cfg);
           SInfo (py "Model " ++ MODEL_NAME cfg ++ py " loaded successfully")].
Proof.
  intros Etk Em; unfold load_model; rewrite Etk, Em.
  destruct (pad_token tk); simpl;
    (split; [reflexivity|]); (split; [eauto|]);
    (split; [reflexivity|]); (split; [|reflexivity]); intros w;
    refine (generate_falsy_body cfg _ _ _ _ _ PNone w eq_refl); reflexivity.
Qed.

Lemma load_model_success_witness :
  let '(out, g', tr) := load_model Fixtures.lib Toy.cfg initial_globals in
  out = Done tt
  /\ (exists m' tk', model g' = Some m' /\ tokenizer g' = Some tk')
  /\ status (model_info Toy.cfg g') = 200
  /\ (forall w, generate Toy.cfg g' (Returned PNone) w
                = (json_error (py "No JSON data provided") 400, w))
  /\ tr = [SInfo (py "Loading model: " ++ MODEL_NAME Toy.cfg);
           STokenizerFromPretrained (MODEL_NAME Toy.cfg);
           SModelFromPretrained (MODEL_NAME Toy.cfg);
           SInfo (py "Model " ++ MODEL_NAME Toy.cfg
                  ++ py " loaded successfully")].
Proof.
  exact (load_model_success Fixtures.lib Toy.cfg initial_globals
           Fixtures.tok_no_pad Toy.lm eq_refl eq_refl).
Defined.

(** X16: when the tokenizer cannot be loaded, [load_model] logs
    ["Failed to load model <name>: <error>"] and raises the same exception
    again; the model loader is not called and both globals keep their
    values. *)
Theorem load_model_tokenizer_fails (lib : Library) (cfg : Config)
    (g : Globals) (e : PyExc) :
  tokenizer_from_pretrained lib (MODEL_NAME cfg) = Failed e ->
  load_model lib cfg g
  = (Failed e, g,
     [SInfo (py "Loading model: " ++ MODEL_NAME cfg);
      STokenizerFromPretrained (MODEL_NAME cfg);
      SError (py "Failed to load model " ++ MODEL_NAME cfg ++ py ": "
              ++ exc_str e)]).
Proof. intros E; unfold load_model; rewrite E; reflexivity. Qed.

Lemma load_model_tokenizer_fails_witness :
  load_model Fixtures.lib_no_tokenizer Toy.cfg initial_globals
  = (Failed (mkExc (py "OSError") (py "gpt2 is not a local folder")),
     initial_globals,
     [SInfo (py "Loading model: gpt2");
      STokenizerFromPretrained (py "gpt2");
      SError (py "Failed to load model gpt2: gpt2 is not a local folder")]).
Proof.
  exact (load_model_tokenizer_fails Fixtures.lib_no_tokenizer Toy.cfg
           initial_globals
           (mkExc (py "OSError") (py "gpt2 is not a local folder")) eq_refl).
Defined.

(** X17: [load_model] is not atomic.  When the tokenizer loads and the model
    does not, the exception is logged and raised again with the global
    [tokenizer] already assigned and the global [model] as it was; if
    [model] was [None], both [GET /model-info] and [POST /generate] still
    answer 500 [{"error": "Model not loaded"}]. *)
Theorem load_model_model_fails (lib : Library) (cfg : Config) (g : Globals)
    (tk : Tokenizer) (e : PyExc) :
  tokenizer_from_pretrained lib (MODEL_NAME cfg) = Done tk ->
  model_from_pretrained lib (MODEL_NAME cfg) = Failed e ->
  let '(out, g', tr) := load_model lib cfg g in
  out = Failed e
  /\ tokenizer g' = Some tk /\ model g' = model g
  /\ tr = [SInfo (py "Loading model: " ++ MODEL_NAME cfg);
           STokenizerFromPretrained (MODEL_NAME cfg);
           SModelFromPretrained (MODEL_NAME cfg);
           SError (py "Failed to load model " ++ MODEL_NAME cfg ++ py ": "
                   ++ exc_str e)]
  /\ (model g = None ->
      model_info cfg g' = json_error (py "Model not loaded") 500
      /\ forall get_json w,
           generate cfg g' get_json w
           = (json_error (py "Model not loaded") 500, w)).
Proof.
  intros Etk Em; unfold load_model; rewrite Etk, Em.
  repeat split; intros; try apply generate_unloaded;
    unfold model_info; simpl; try rewrite H; auto.
Qed.

Lemma load_model_model_fails_witness :
  let '(out, g', tr) :=
    load_model Fixtures.lib_no_model Toy.cfg initial_globals in
  out = Failed (mkExc (py "OSError") (py "gpt2 is not a local folder"))
  /\ tokenizer g' = Some Fixtures.tok_no_pad
  /\ model g' = model initial_globals
  /\ tr = [SInfo (py "Loading model: " ++ MODEL_NAME Toy.cfg);
           STokenizerFromPretrained (MODEL_NAME Toy.cfg);
           SModelFromPretrained (MODEL_NAME Toy.cfg);
           SError (py "Failed to load model " ++ MODEL_NAME Toy.cfg
                   ++ py ": " ++ py "gpt2 is not a local folder")]
  /\ (model initial_globals = None ->
      model_info Toy.cfg g' = json_error (py "Model not loaded") 500
      /\ forall get_json w,
           generate Toy.cfg g' get_json w
           = (json_error (py "Model not loaded") 500, w)).
Proof.
  exact (load_model_model_fails Fixtures.lib_no_model Toy.cfg initial_globals
           Fixtures.tok_no_pad
           (mkExc (py "OSError") (py "gpt2 is not a local folder"))
           eq_refl eq_refl).
Defined.

(** X18: after a successful [load_model], a tokenizer that came with a
    padding token is the global [tokenizer] unchanged, next to the model
    unchanged; for one that came without, [GET /model-info] reports the
    end-of-sequence token as [pad_token], provided that the library reads
    back the padding token that was assigned and that the assignment leaves
    the end-of-sequence token alone. *)
Theorem load_model_pad_token (lib : Library) (cfg : Config) (g : Globals)
    (tk : Tokenizer) (m : Model) :
  tokenizer_from_pretrained lib (MODEL_NAME cfg) = Done tk ->
  model_from_pretrained lib (MODEL_NAME cfg) = Done m ->
  let g' := snd (fst (load_model lib cfg g)) in
  (pad_token tk <> None -> g' = mkGlobals (Some m) (Some tk))
  /\ (pad_token tk = None ->
      (forall p, pad_token (set_pad_token lib tk p) = p) ->
      (forall p, eos_token (set_pad_token lib tk p) = eos_token tk) ->
      dict_get (py "pad_token") (body (model_info cfg g'))
      = Some (opt_str (eos_token tk))
      /\ dict_get (py "eos_token") (body (model_info cfg g'))
         = Some (opt_str (eos_token tk))).
Proof.
  intros Etk Em; unfold load_model; rewrite Etk, Em; simpl.
  split.
  - intros Hp; destruct (pad_token tk); [reflexivity | contradiction].
  - intros Hp Hset Heos; rewrite Hp; unfold model_info; simpl.
    rewrite Hset, Heos; split; reflexivity.
Qed.

Lemma load_model_pad_token_witness :
  dict_get (py "pad_token")
    (body (model_info Toy.cfg
             (snd (fst (load_model Fixtures.lib Toy.cfg initial_globals)))))
  = Some (PStr (py "<|endoftext|>"))
  /\ dict_get (py "eos_token")
       (body (model_info Toy.cfg
                (snd (fst (load_model Fixtures.lib Toy.cfg initial_globals)))))
     = Some (PStr (py "<|endoftext|>")).
Proof.
  exact (proj2 (load_model_pad_token Fixtures.lib Toy.cfg initial_globals
                  Fixtures.tok_no_pad Toy.lm eq_refl eq_refl)
           eq_refl (fun p => eq_refl) (fun p => eq_refl)).
Defined.

Lemma generation_failed_not_unloaded (s : pystr) :
  json_error (py "Generation failed: " ++ s) 500
  <> json_error (py "Model not loaded") 500.
Proof. intros H; cbv in H; discriminate H. Qed.

(** With the model loaded, [generate] never answers "Model not loaded". *)
Lemma generate_loaded_answers (cfg : Config) (g : Globals) (m : Model)
    (tk : Tokenizer) (get_json : Outcome PyVal) (w : World) :
  model g = Some m -> tokenizer g = Some tk ->
  fst (generate cfg g get_json w) <> json_error (py "Model not loaded") 500.
Proof.
  intros Hm Htk.
  destruct get_json as [e|data];
    [rewrite (generate_raised_json cfg g m tk Hm Htk);
     apply generation_failed_not_unloaded|].
  destruct (truthy data) eqn:Hd;
    [|rewrite (generate_falsy_body cfg g m tk Hm Htk) by assumption;
      discriminate].
  destruct data as [| | | | |l|d];
    try (rewrite (generate_raised_get cfg g m tk Hm Htk)
           by (assumption || (intros; discriminate));
         apply generation_failed_not_unloaded).
  destruct (dict_get (py "prompt") d) as [prompt|] eqn:Hp;
    [|rewrite (generate_falsy_prompt cfg g m tk Hm Htk)
        by (assumption || (rewrite dict_get_or_none by assumption; reflexivity));
      discriminate].
  destruct (truthy prompt) eqn:Ht;
    [|rewrite (generate_falsy_prompt cfg g m tk Hm Htk)
        by (assumption
            || (rewrite (dict_get_or_some _ _ _ _ Hp); assumption));
      discriminate].
  destruct (py_gt_int (requested_max_tokens cfg d) (MAX_TOKENS_LIMIT cfg))
    as [e|over] eqn:Hgt;
    [rewrite (generate_raised_gt cfg g m tk Hm Htk d prompt e) by assumption;
     apply generation_failed_not_unloaded|].
  rewrite (generate_validated cfg g m tk Hm Htk d prompt over) by assumption.
  match goal with
  | |- fst (try_except (run_generation ?c ?m ?t ?p ?mt ?ds ?te ?tp) _ _) <> _ =>
      destruct (run_generation_shape c m t p mt ds te tp w)
        as (tr & rg & _ & _ & _ & [(H200 & _) | (e & -> & _)])
  end.
  - intros E; rewrite E in H200; discriminate H200.
  - apply generation_failed_not_unloaded.
Qed.

(** X19: the three endpoints and the availability of the model.
    [GET /] answers 200 ["healthy"] whether or not the model is loaded;
    [GET /model-info] and [POST /generate] apply the same test: either both
    answer 500 [{"error": "Model not loaded"}] (for every request), or
    [model-info] answers 200 and no request to [generate] gets that
    answer. *)
Theorem endpoints_availability (cfg : Config) (g : Globals) :
  (status (health_check cfg) = 200
   /\ dict_get (py "status") (body (health_check cfg))
      = Some (PStr (py "healthy")))
  /\ ((model_info cfg g = json_error (py "Model not loaded") 500
       /\ forall get_json w,
            generate cfg g get_json w
            = (json_error (py "Model not loaded") 500, w))
      \/ (status (model_info cfg g) = 200
          /\ forall get_json w,
               fst (generate cfg g get_json w)
               <> json_error (py "Model not loaded") 500)).
Proof.
  split; [split; reflexivity|].
  destruct (model g) as [m|] eqn:Hm; [destruct (tokenizer g) as [tk|] eqn:Htk|].
  - right; split; [unfold model_info; rewrite Hm, Htk; reflexivity|].
    intros; eapply generate_loaded_answers; eassumption.
  - left; split; [unfold model_info; rewrite Hm, Htk; reflexivity|].
    intros; apply generate_unloaded; right; assumption.
  - left; split; [unfold model_info; rewrite Hm; reflexivity|].
    intros; apply generate_unloaded; left; assumption.
Qed.

(** X20: how the [__main__] block ends.  [app.run] is reached exactly when
    both loaders returned.  The first of the tokenizer loader, the model
    loader and [app.run] that does not return decides the end.  If all
    three return, the exit status is 0 and no error is logged.  If it
    raised an [Exception], the status is 1 and the last two lines logged
    are the two error lines of the [except] clause, the first with the
    text of that exception.  If it raised something that is not an
    [Exception] ([SystemExit], [KeyboardInterrupt]), neither [except]
    clause runs: no error is logged and the status is the one the
    interpreter gives that exit, which need not be 1. *)
Theorem main_exit_code (lib : Library) (cfg : Config) (HOST : pystr)
    (PORT : Z) (app_run : Attempt unit) (g : Globals) :
  let '(code, _, tr) := main lib cfg HOST PORT app_run g in
  let tok := tokenizer_from_pretrained lib (MODEL_NAME cfg) in
  let mdl := model_from_pretrained lib (MODEL_NAME cfg) in
  let loaded := exists tk m, tok = Done tk /\ mdl = Done m in
  (server_started tr = true <-> loaded)
  /\ ((loaded /\ (exists u, app_run = Done u)
       /\ code = 0 /\ startup_error_logged tr = false)
      \/ (exists e,
            (tok = Failed e
             \/ ((exists tk, tok = Done tk) /\ mdl = Failed e)
             \/ (loaded /\ app_run = Failed e))
            /\ code = 1
            /\ exists pre,
                 tr = pre
                      ++ [SError (py "Failed to start server: " ++ exc_str e);
                          SError (py "Make sure you have internet connection and the model name is correct in .env file")])
      \/ (exists status,
            (tok = Escaped status
             \/ ((exists tk, tok = Done tk) /\ mdl = Escaped status)
             \/ (loaded /\ app_run = Escaped status))
            /\ code = status /\ startup_error_logged tr = false)).
Proof.
  unfold main, load_model.
  destruct (tokenizer_from_pretrained lib (MODEL_NAME cfg)) as [tk|e|st].
  2:{ split.
      - simpl; split; [discriminate | intros (? & ? & H & _); discriminate H].
      - right; left; exists e; split; [left; reflexivity|].
        split; [reflexivity | eexists; reflexivity]. }
  2:{ split.
      - simpl; split; [discriminate | intros (? & ? & H & _); discriminate H].
      - right; right; exists st; split; [left; reflexivity|].
        split; reflexivity. }
  destruct (model_from_pretrained lib (MODEL_NAME cfg)) as [m|e|st].
  2:{ split.
      - simpl; split; [discriminate | intros (? & ? & _ & H); discriminate H].
      - right; left; exists e; split; [right; left; eauto|].
        split; [reflexivity | eexists; reflexivity]. }
  2:{ split.
      - simpl; split; [discriminate | intros (? & ? & _ & H); discriminate H].
      - right; right; exists st; split; [right; left; eauto|].
        split; reflexivity. }
  destruct app_run as [u|e|st].
  - split; [simpl; split; eauto|].
    left; split; [eauto|]; split; [eauto|]; split; reflexivity.
  - split; [simpl; split; eauto|].
    right; left; exists e; split; [right; right; eauto|].
    split; [reflexivity | eexists; reflexivity].
  - split; [simpl; split; eauto|].
    right; right; exists st; split; [right; right; eauto|].
    split; reflexivity.
Qed.

(** An interrupted download of the model ends the process with the status
    of the interruption, with the tokenizer assigned and nothing logged as
    an error. *)
Example main_interrupted :
  let '(code, g', tr) :=
    main Fixtures.lib_interrupted Toy.cfg (py "0.0.0.0") 5000 (Done tt)
      initial_globals in
  code = 130 /\ model g' = None /\ tokenizer g' = Some Fixtures.tok_no_pad
  /\ startup_error_logged tr = false /\ server_started tr = false.
Proof. repeat split. Qed.

(** X21: the server is started only with the model loaded: whenever the
    [__main__] block reaches [app.run], both globals are set, so that while
    it serves [GET /model-info] answers 200 and no [POST /generate] is
    answered "Model not loaded". *)
Theorem main_serves_loaded (lib : Library) (cfg : Config) (HOST : pystr)
    (PORT : Z) (app_run : Attempt unit) (g : Globals) :
  let '(_, g', tr) := main lib cfg HOST PORT app_run g in
  server_started tr = true ->
  (exists m tk, model g' = Some m /\ tokenizer g' = Some tk)
  /\ status (model_info cfg g') = 200
  /\ forall get_json w,
       fst (generate cfg g' get_json w)
       <> json_error (py "Model not loaded") 500.
Proof.
  unfold main, load_model.
  destruct (tokenizer_from_pretrained lib (MODEL_NAME cfg)) as [tk|e|st];
    [|simpl; discriminate|simpl; discriminate].
  destruct (model_from_pretrained lib (MODEL_NAME cfg)) as [m|e|st];
    [|simpl; discriminate|simpl; discriminate].
  assert (H : forall g', (exists m tk, model g' = Some m /\ tokenizer g' = Some tk) ->
              (exists m tk, model g' = Some m /\ tokenizer g' = Some tk)
              /\ status (model_info cfg g') = 200
              /\ forall get_json w,
                   fst (generate cfg g' get_json w)
                   <> json_error (py "Model not loaded") 500).
  { intros g' (m' & tk' & Hm & Htk); split; [eauto|]; split.
    - unfold model_info; rewrite Hm, Htk; reflexivity.
    - intros; eapply generate_loaded_answers; eassumption. }
  destruct app_run; destruct (pad_token tk); intros _; apply H; simpl; eauto.
Qed.

Lemma main_serves_loaded_witness :
  let '(_, g', tr) :=
    main Fixtures.lib Toy.cfg (py "0.0.0.0") 5000 (Done tt)
      initial_globals in
  (exists m tk, model g' = Some m /\ tokenizer g' = Some tk)
  /\ status (model_info Toy.cfg g') = 200
  /\ forall get_json w,
       fst (generate Toy.cfg g' get_json w)
       <> json_error (py "Model not loaded") 500.
Proof.
  exact (main_serves_loaded Fixtures.lib Toy.cfg (py "0.0.0.0") 5000
           (Done tt) initial_globals eq_refl).
Defined.

(** * The set-up script *)

Module SetupFacts.

Import Setup.
Local Open Scope sh_scope.

Ltac sh_unfold :=
  unfold sbind, sret, print, run_cmd, try_catch, exists_, import_,
    shutil_copy; simpl.

(** Runs the script on a machine given by its three fields. *)
Ltac sh_run :=
  cbv [sbind sret print run_cmd try_catch exists_ import_ shutil_copy
       for_each files ran printed negb].

Lemma ran_since_app (fs fs' : list (pystr * pystr)) (rn cs : list Cmd)
    (pr pr' : list pystr) :
  ran_since (mkMachine fs rn pr) (mkMachine fs' (rn ++ cs) pr') = cs.
Proof. unfold ran_since; simpl; apply skipn_length_app. Qed.

Lemma ran_since_same (fs fs' : list (pystr * pystr)) (rn : list Cmd)
    (pr pr' : list pystr) :
  ran_since (mkMachine fs rn pr) (mkMachine fs' rn pr') = [].
Proof. unfold ran_since; simpl; apply skipn_all. Qed.

Lemma pystr_eqb_refl (a : pystr) : pystr_eqb a a = true.
Proof. apply pystr_eqb_eq; reflexivity. Qed.

Lemma pystr_eqb_neq (a b : pystr) : a <> b -> pystr_eqb a b = false.
Proof.
  intros H; destruct (pystr_eqb a b) eqn:E; [|reflexivity].
  apply pystr_eqb_eq in E; contradiction.
Qed.

Lemma read_write_same (path c : pystr) (fs : list (pystr * pystr)) :
  read_file path (write_file path c fs) = Some c.
Proof.
  induction fs as [|[p c'] fs IH]; simpl.
  - rewrite pystr_eqb_refl; reflexivity.
  - destruct (pystr_eqb path p) eqn:E; simpl; rewrite E; auto.
Qed.

Lemma read_write_other (path path' c : pystr) (fs : list (pystr * pystr)) :
  path' <> path ->
  read_file path' (write_file path c fs) = read_file path' fs.
Proof.
  intros Hne; induction fs as [|[p c'] fs IH]; simpl.
  - rewrite (pystr_eqb_neq _ _ Hne); reflexivity.
  - destruct (pystr_eqb path p) eqn:E; simpl.
    + apply pystr_eqb_eq in E; subst p.
      rewrite (pystr_eqb_neq _ _ Hne); reflexivity.
    + destruct (pystr_eqb path' p); auto.
Qed.





(** ** The installers *)

Ltac step_cmd h :=
  match goal with
  | |- context [check_call h ?rn ?cmd] =>
      let e := fresh "e" in
      let E := fresh "E" in
      let C := fresh "C" in
      destruct (check_call h rn cmd) as [e|[]] eqn:E; sh_run;
      [destruct (is_called_process_error h e) eqn:C; sh_run|]
  end.













(** ** What each step of [main] leaves behind *)

Lemma path_exists_files (path : pystr) (s s' : Machine) :
  files s' = files s -> path_exists path s' = path_exists path s.
Proof. unfold path_exists; intros ->; reflexivity. Qed.

Lemma check_python_version_eq (h : Host) (s : Machine) :
  exists line,
    check_python_version h s
    = (Returned (version_supported h),
       mkMachine (files s) (ran s) (printed s ++ [line])).
Proof.
  unfold check_python_version, version_supported.
  destruct (version_info h) as [[major minor] micro].
  destruct (tuple_lt [major; minor; micro] [3; 8]); eexists; reflexivity.
Qed.

Lemma check_virtual_environment_eq (h : Host) (s : Machine) :
  exists line,
    check_virtual_environment h s
    = (Returned true, mkMachine (files s) (ran s) (printed s ++ [line])).
Proof.
  unfold check_virtual_environment; destruct (in_venv h);
    eexists; reflexivity.
Qed.

Lemma create_env_file_trace (h : Host) (s : Machine) :
  exists fs' pr',
    snd (create_env_file h s) = mkMachine fs' (ran s) pr'
    /\ read_file (py "requirements.txt") fs'
       = read_file (py "requirements.txt") (files s)
    /\ match fst (create_env_file h s) with
       | Returned true => read_file (py ".env") fs' <> None
       | Returned false =>
           path_exists (py ".env") s = false
           /\ path_exists (py "example.env") s = false
       | Raised e => copy_error h = Some e
       end.
Proof.
  assert (Hreq : py "requirements.txt" <> py ".env")
    by (intros E; vm_compute in E; discriminate E).
  destruct s as [fs rn pr]; unfold create_env_file; sh_unfold.
  destruct (path_exists (py ".env") (mkMachine fs rn pr)) eqn:Henv; simpl.
  { do 2 eexists; split; [reflexivity|]; split; [reflexivity|].
    unfold path_exists in Henv; simpl in Henv.
    destruct (read_file (py ".env") fs); [discriminate | discriminate]. }
  destruct (path_exists (py "example.env") (mkMachine fs rn pr)) eqn:Hex;
    simpl; [|do 2 eexists; repeat split; reflexivity].
  unfold path_exists in Hex; simpl in Hex.
  destruct (read_file (py "example.env") fs) as [c|] eqn:Hc;
    [|discriminate Hex].
  destruct (copy_error h) as [e|]; simpl.
  - destruct (copy_written h) as [n|]; simpl; do 2 eexists;
      (split; [reflexivity|]); (split; [|reflexivity]);
      [apply read_write_other; exact Hreq | reflexivity].
  - do 2 eexists; split; [reflexivity|]; split.
    + apply read_write_other; exact Hreq.
    + rewrite read_write_same; discriminate.
Qed.

Lemma install_basic_packages_trace (h : Host) (s : Machine) :
  installer_trace h s (install_basic_packages h s)
    (fun cs => cs = basic_commands h).
Proof.
  destruct s as [fs rn pr].
  unfold installer_trace, install_basic_packages, basic_commands,
    basic_packages; sh_run.
  rewrite <- ?app_assoc; simpl app.
  repeat step_cmd h; simpl fst; simpl snd;
    rewrite <- ?app_assoc; cbn [app map];
    do 2 eexists; (split; [reflexivity|]);
    try assumption; try reflexivity;
    first
      [ exists []; do 2 eexists; rewrite app_nil_r;
        split; [reflexivity|]; split; eassumption
      | eexists [_]; do 2 eexists;
        split; [reflexivity|]; split; eassumption
      | eexists [_; _]; do 2 eexists;
        split; [reflexivity|]; split; eassumption
      | eexists [_; _; _]; do 2 eexists;
        split; [reflexivity|]; split; eassumption ].
Qed.

Lemma install_ml_packages_trace (h : Host) (s : Machine) :
  exists cs pr',
    snd (install_ml_packages h s) = mkMachine (files s) (ran s ++ cs) pr'
    /\ forall e,
         fst (install_ml_packages h s) = Raised e ->
         is_called_process_error h e = false.
Proof.
  destruct s as [fs rn pr].
  unfold install_ml_packages, remaining_packages; sh_run.
  repeat step_cmd h; simpl fst; simpl snd;
    rewrite <- ?app_assoc; cbn [app];
    do 2 eexists; (split; [reflexivity|]);
    intros e' He'; try discriminate He';
    injection He' as <-; assumption.
Qed.

Ltac sh_seq :=
  cbv [sbind sret print exists_ try_catch run_cmd negb files ran printed].

Lemma install_dependencies_trace (h : Host) (s : Machine) :
  exists cs pr',
    snd (install_dependencies h s) = mkMachine (files s) (ran s ++ cs) pr'
    /\ (cs <> [] -> path_exists (py "requirements.txt") s = true)
    /\ match fst (install_dependencies h s) with
       | Returned true =>
           path_exists (py "requirements.txt") s = true
           /\ exists rest, cs = basic_commands h ++ rest
       | Returned false =>
           (cs = [] /\ path_exists (py "requirements.txt") s = false)
           \/ exists pre cmd e,
                cs = pre ++ [cmd]
                /\ check_call h (ran s ++ pre) cmd = Raised e
                /\ is_called_process_error h e = true
       | Raised e => is_called_process_error h e = false
       end.
Proof.
  destruct s as [fs rn pr].
  cbv [install_dependencies]; sh_seq.
  destruct (path_exists (py "requirements.txt") (mkMachine fs rn pr)) eqn:Hreq.
  2:{ exists []; eexists; rewrite app_nil_r; simpl.
      split; [reflexivity|]; split; [intros H; contradiction|]; auto. }
  match goal with
  | |- context [install_basic_packages h ?S] =>
      destruct (install_basic_packages_trace h S) as (cs1 & pr1 & Hs1 & Ho1);
      destruct (install_basic_packages h S) as [o1 s1]
  end.
  simpl in Hs1, Ho1; subst s1.
  destruct o1 as [e|[|]]; sh_seq; simpl fst; simpl snd.
  - exists cs1; eexists; split; [reflexivity|]; split; [reflexivity|].
    exact Ho1.
  - subst cs1.
    match goal with
    | |- context [install_ml_packages h ?S] =>
        destruct (install_ml_packages_trace h S) as (cs2 & pr2 & Hs2 & Ho2);
        destruct (install_ml_packages h S) as [o2 s2]
    end.
    simpl in Hs2, Ho2; subst s2.
    destruct o2 as [e|[|]]; sh_seq; simpl fst; simpl snd.
    + exists (basic_commands h ++ cs2); eexists; rewrite <- ?app_assoc.
      split; [reflexivity|]; split; [reflexivity|].
      apply Ho2; reflexivity.
    + exists (basic_commands h ++ cs2); eexists; rewrite <- ?app_assoc.
      split; [reflexivity|]; split; [reflexivity|].
      split; [reflexivity | eauto].
    + rewrite <- ?app_assoc.
      destruct (check_call h (rn ++ basic_commands h ++ cs2)
                  (pip_install h [py "-r"; py "requirements.txt"]))
        as [e|[]] eqn:E; [destruct (is_called_process_error h e) eqn:C|];
        sh_seq; simpl fst; simpl snd;
        exists ((basic_commands h ++ cs2)
                ++ [pip_install h [py "-r"; py "requirements.txt"]]);
        eexists; rewrite <- ?app_assoc;
        (split; [reflexivity|]); (split; [reflexivity|]).
      * right; exists (basic_commands h ++ cs2); do 2 eexists.
        rewrite <- ?app_assoc; split; [reflexivity|]; split; eassumption.
      * exact C.
      * split; [reflexivity|]; eauto.
  - exists cs1; eexists; split; [reflexivity|]; split; [reflexivity|].
    right; exact Ho1.
Qed.

Ltac step_import h :=
  match goal with
  | |- context [try_import h ?rn ?name] =>
      let e := fresh "e" in
      let C := fresh "C" in
      destruct (try_import h rn name) as [e|[]];
      cbv [sbind sret print try_catch import_ files ran printed];
      [destruct (is_import_error h e) eqn:C;
       cbv [sbind sret print try_catch import_ files ran printed]|]
  end.

Lemma test_basic_imports_trace (h : Host) (s : Machine) :
  exists pr',
    snd (test_basic_imports h s) = mkMachine (files s) (ran s) pr'
    /\ forall e,
         fst (test_basic_imports h s) = Raised e ->
         is_import_error h e = false.
Proof.
  destruct s as [fs rn pr].
  cbv [test_basic_imports sbind sret print try_catch import_ files ran
       printed].
  repeat step_import h; simpl fst; simpl snd;
    eexists; (split; [reflexivity|]);
    intros e' He'; try discriminate He';
    injection He' as <-; assumption.
Qed.

Lemma test_ml_imports_trace (h : Host) (s : Machine) :
  exists pr',
    snd (test_ml_imports h s) = mkMachine (files s) (ran s) pr'
    /\ forall e,
         fst (test_ml_imports h s) = Raised e ->
         is_import_error h e = false.
Proof.
  destruct s as [fs rn pr].
  cbv [test_ml_imports sbind sret print try_catch import_ files ran printed].
  repeat step_import h; simpl fst; simpl snd;
    eexists; (split; [reflexivity|]);
    intros e' He'; try discriminate He';
    injection He' as <-; assumption.
Qed.

(** Every way [main] can end. *)
Lemma main_trace (h : Host) (s : Machine) :
  exists fs' cs pr',
    snd (main h s) = mkMachine fs' (ran s ++ cs) pr'
    /\ (cs <> [] ->
        version_supported h = true
        /\ read_file (py ".env") fs' <> None
        /\ read_file (py "requirements.txt") fs' <> None)
    /\ match fst (main h s) with
       | Returned None =>
           version_supported h = true
           /\ read_file (py ".env") fs' <> None
           /\ read_file (py "requirements.txt") fs' <> None
           /\ exists rest, cs = basic_commands h ++ rest
       | Returned (Some code) =>
           code = 1
           /\ (version_supported h = false
               \/ (path_exists (py ".env") s = false
                   /\ path_exists (py "example.env") s = false)
               \/ path_exists (py "requirements.txt") s = false
               \/ exists pre cmd e,
                    cs = pre ++ [cmd]
                    /\ check_call h (ran s ++ pre) cmd = Raised e
                    /\ is_called_process_error h e = true)
       | Raised e =>
           copy_error h = Some e
           \/ is_called_process_error h e = false
           \/ is_import_error h e = false
       end.
Proof.
  destruct s as [fs rn pr].
  cbv [main]; sh_seq.
  match goal with
  | |- context [check_python_version h ?S] =>
      destruct (check_python_version_eq h S) as (line1 & ->)
  end.
  sh_seq.
  destruct (version_supported h) eqn:Hv.
  2:{ exists fs, []; eexists; rewrite app_nil_r; simpl.
      split; [reflexivity|]; split; [intros H; contradiction|]; auto. }
  match goal with
  | |- context [check_virtual_environment h ?S] =>
      destruct (check_virtual_environment_eq h S) as (line2 & ->)
  end.
  sh_seq.
  match goal with
  | |- context [create_env_file h ?S] =>
      destruct (create_env_file_trace h S) as (fs1 & pr1 & Hs1 & Hreq1 & Ho1);
      destruct (create_env_file h S) as [o1 s1]
  end.
  simpl in Hs1, Hreq1, Ho1; subst s1.
  destruct o1 as [e|[|]]; sh_seq; simpl fst; simpl snd.
  { exists fs1, []; eexists; rewrite app_nil_r.
    split; [reflexivity|]; split; [intros H; contradiction|]; auto. }
  2:{ exists fs1, []; eexists; rewrite app_nil_r.
      split; [reflexivity|]; split; [intros H; contradiction|].
      split; [reflexivity|]; right; left; exact Ho1. }
  match goal with
  | |- context [install_dependencies h ?S] =>
      destruct (install_dependencies_trace h S)
        as (cs2 & pr2 & Hs2 & Hne2 & Ho2);
      destruct (install_dependencies h S) as [o2 s2]
  end.
  unfold path_exists in Hne2, Ho2; simpl in Hs2, Hne2, Ho2; subst s2.
  rewrite Hreq1 in Hne2, Ho2.
  assert (Hprep : cs2 <> [] ->
                  true = true /\ read_file (py ".env") fs1 <> None
                  /\ read_file (py "requirements.txt") fs1 <> None).
  { intros H; specialize (Hne2 H); split; [reflexivity|]; split; [exact Ho1|].
    rewrite Hreq1; destruct (read_file (py "requirements.txt") fs);
      [discriminate | discriminate Hne2]. }
  destruct o2 as [e|[|]]; sh_seq; simpl fst; simpl snd.
  - exists fs1, cs2; eexists; split; [reflexivity|]; split; [exact Hprep|].
    auto.
  - match goal with
    | |- context [test_basic_imports h ?S] =>
        destruct (test_basic_imports_trace h S) as (pr3 & Hs3 & Ho3);
        destruct (test_basic_imports h S) as [o3 s3]
    end.
    simpl in Hs3, Ho3; subst s3.
    destruct Ho2 as (Hreq2 & rest & Hcs2).
    assert (Hne : cs2 <> [])
      by (rewrite Hcs2; unfold basic_commands; simpl; discriminate).
    destruct o3 as [e|b3]; sh_seq; simpl fst; simpl snd.
    { exists fs1, cs2; eexists; split; [reflexivity|]; split; [exact Hprep|].
      right; right; apply Ho3; reflexivity. }
    match goal with
    | |- context [test_ml_imports h ?S] =>
        destruct (test_ml_imports_trace h S) as (pr4 & Hs4 & Ho4);
        destruct (test_ml_imports h S) as [o4 s4]
    end.
    simpl in Hs4, Ho4; subst s4.
    destruct o4 as [e|b4]; sh_seq; simpl fst; simpl snd.
    { exists fs1, cs2; eexists; split; [reflexivity|]; split; [exact Hprep|].
      right; right; apply Ho4; reflexivity. }
    exists fs1, cs2; eexists; split; [reflexivity|]; split; [exact Hprep|].
    destruct (Hprep Hne) as (_ & Henv & Hreq).
    repeat split; try assumption.
    exists rest; exact Hcs2.
  - exists fs1, cs2; eexists; split; [reflexivity|]; split; [exact Hprep|].
    split; [reflexivity|].
    destruct Ho2 as [(_ & Hreq2) | Hfail].
    + right; right; left; unfold path_exists; simpl.
      destruct (read_file (py "requirements.txt") fs);
        [discriminate Hreq2 | reflexivity].
    + right; right; right; exact Hfail.
Qed.

Lemma read_file_exists (path : pystr) (fs : list (pystr * pystr))
    (rn : list Cmd) (pr : list pystr) :
  read_file path fs <> None -> path_exists path (mkMachine fs rn pr) = true.
Proof.
  unfold path_exists; simpl; destruct (read_file path fs);
    [reflexivity | contradiction].
Qed.

(** ** The version check and [main] *)



(** X28: [main] runs [pip] only on a prepared machine: if any command was
    run, the Python version is supported and, at the end of the run, both
    [.env] and [requirements.txt] exist.  On an old Python, or when no
    [.env] can be made, nothing is installed. *)
Theorem main_installs_only_when_prepared (h : Host) (s : Machine) :
  let (o, s') := main h s in
  ran_since s s' <> [] ->
  version_supported h = true
  /\ path_exists (py ".env") s' = true
  /\ path_exists (py "requirements.txt") s' = true.
Proof.
  destruct (main_trace h s) as (fs' & cs & pr' & Hs & Hprep & _).
  destruct (main h s) as [o s']; simpl in Hs; subst s'.
  destruct s as [fs rn pr]; simpl; rewrite ran_since_app.
  intros H; destruct (Hprep H) as (Hv & Henv & Hreq).
  split; [exact Hv|]; split; apply read_file_exists; assumption.
Qed.

Lemma main_installs_only_when_prepared_witness :
  version_supported host_ok = true
  /\ path_exists (py ".env") (snd (main host_ok checkout)) = true
  /\ path_exists (py "requirements.txt") (snd (main host_ok checkout)) = true.
Proof.
  generalize (main_installs_only_when_prepared host_ok checkout).
  vm_compute; intros H.
  apply H; discriminate.
Defined.


End SetupFacts.
